(** * Flight delay prediction: the encoder, the label generator, the model
      store and the serving validator of [challenge/model.py] and
      [challenge/api.py], embedded in Rocq.

    Python values are an inductive type, exceptions are an error monad,
    dicts are finite maps, a data frame is its list of named columns.  The
    library functions the code calls (the [int] builtin on text,
    [datetime.strptime], scikit-learn's estimator, [pickle]) are interfaces:
    the code is verified against any implementation of them. *)

From Stdlib Require Import ZArith QArith String Ascii List Lia DecimalString DecimalZ.
From stdpp Require Import gmap strings list fin_maps sorting.

#[local] Set Warnings "-register-all".
#[local] Open Scope Z_scope.

(** ** Python values and exceptions *)

Module Py.

(** The exceptions that the modelled code raises or lets through. *)
Inductive exn :=
| HTTPException (status_code : Z)
| KeyError
| TypeError
| ValueError
| OverflowError
| FileNotFoundError
| UnpicklingError.

#[global] Instance exn_eq_dec : EqDecision exn.
Proof. solve_decision. Defined.

(** A computation that returns or raises. *)
Inductive result (A : Type) :=
| Ok (a : A)
| Raise (e : exn).
Arguments Ok {A} a.
Arguments Raise {A} e.

Definition bind {A B} (m : result A) (k : A → result B) : result B :=
  match m with
  | Ok a => k a
  | Raise e => Raise e
  end.

(** A float: a finite value (its exact rational), [nan] or an infinity. *)
Inductive pyfloat :=
| FNum (q : Q)
| FNaN
| FInf (negative : bool).

(** The values a decoded JSON body or a data-frame cell can hold. *)
Inductive pyval :=
| VNone
| VBool (b : bool)
| VInt (z : Z)
| VFloat (f : pyfloat)
| VStr (s : string)
| VList (l : list pyval)
| VDict (d : gmap string pyval).

(** [str(z)] for an int. *)
Definition str_int (z : Z) : string := NilZero.string_of_int (Z.to_int z).

(** [int(f)] for a float: truncation toward zero; [nan] and the infinities
    raise. *)
Definition int_of_float (f : pyfloat) : result Z :=
  match f with
  | FNum q => Ok (Z.quot (Qnum q) (Z.pos (Qden q)))
  | FNaN => Raise ValueError
  | FInf _ => Raise OverflowError
  end.

(** [k in s] for two strs: [k] occurs in [s]. *)
Fixpoint str_contains (k s : string) : bool :=
  String.prefix k s ||
  match s with
  | EmptyString => false
  | String _ s' => str_contains k s'
  end.

(** [x == k] for a str [k]. *)
Definition eq_str (k : string) (x : pyval) : bool :=
  match x with
  | VStr s => bool_decide (s = k)
  | _ => false
  end.

(** [k in f] for a str [k]: key test on a dict, substring test on a str,
    element test on a list, [TypeError] on a value that is no container. *)
Definition contains (k : string) (f : pyval) : result bool :=
  match f with
  | VDict d => Ok (bool_decide (is_Some (d !! k)))
  | VStr s => Ok (str_contains k s)
  | VList l => Ok (existsb (eq_str k) l)
  | VNone | VBool _ | VInt _ | VFloat _ => Raise TypeError
  end.

(** [f[k]] for a str [k]. *)
Definition getitem (f : pyval) (k : string) : result pyval :=
  match f with
  | VDict d =>
      match d !! k with
      | Some v => Ok v
      | None => Raise KeyError
      end
  | _ => Raise TypeError
  end.

(** The values that can be looked up in a set: all but lists and
    dicts. *)
Definition hashable (v : pyval) : Prop :=
  match v with
  | VList _ | VDict _ => False
  | VNone | VBool _ | VInt _ | VFloat _ | VStr _ => True
  end.

End Py.
Export Py.

#[global] Instance result_ret : MRet result := @Ok.
#[global] Instance result_bind : MBind result := λ A B k m, Py.bind m k.

(** [a < b] on rationals is decided on the cross products. *)
#[global] Instance Qlt_dec : RelDecision Qlt :=
  λ a b, decide (Qnum a * QDen b < Qnum b * QDen a).

(** ** Dates *)

(** A [datetime.datetime] without microseconds and time zone, as
    [strptime] with the format of the source builds it. *)
Record datetime := {
  year : Z; month : Z; day : Z; hour : Z; minute : Z; second : Z
}.

Definition is_leap (y : Z) : bool :=
  (y mod 4 =? 0) && (negb (y mod 100 =? 0) || (y mod 400 =? 0)).

Definition days_before_year (y : Z) : Z :=
  let p := y - 1 in p * 365 + p / 4 - p / 100 + p / 400.

Definition days_before_month (y m : Z) : Z :=
  nth (Z.to_nat m) [0; 0; 31; 59; 90; 120; 151; 181; 212; 243; 273; 304; 334] 0
  + (if (2 <? m) && is_leap y then 1 else 0).

(** [toordinal()]: day 1 is 0001-01-01 of the proleptic Gregorian
    calendar. *)
Definition toordinal (d : datetime) : Z :=
  days_before_year (year d) + days_before_month (year d) (month d) + day d.

Definition seconds_of_day (d : datetime) : Z :=
  hour d * 3600 + minute d * 60 + second d.

(** [(a - b).total_seconds()]. *)
Definition total_seconds_between (a b : datetime) : Z :=
  (toordinal a - toordinal b) * 86400 + (seconds_of_day a - seconds_of_day b).

(** ** The libraries behind the code *)

(** The builtins that read text.  [int_of_str s] is [int(s)] for a str;
    [strptime s] is [datetime.strptime(s, '%Y-%m-%d %H:%M:%S')], [None]
    when it raises [ValueError]. *)
Class Builtins := {
  int_of_str : string → result Z;
  strptime : string → option datetime
}.

(** The builtin [int(v)]. *)
Definition py_int `{Builtins} (v : pyval) : result Z :=
  match v with
  | VInt z => Ok z
  | VBool b => Ok (if b then 1 else 0)
  | VFloat f => int_of_float f
  | VStr s => int_of_str s
  | VNone | VList _ | VDict _ => Raise TypeError
  end.

(** A frame of numeric columns: the length of its index and its columns
    in order, each with its label. *)
Record DataFrame := {
  index_len : nat;
  columns : list (string * list Z)
}.

(** A float64 that numpy computes as the true division of two counts,
    kept as its two operands.  The rounding of the quotient, and the [nan]
    or the infinity that a zero divisor gives (with a warning and no
    exception), are the library's: no arithmetic is done on these
    values here. *)
Record float_quotient := {
  dividend : nat;
  divisor : nat
}.

(** scikit-learn's [LogisticRegression] and [pickle]: a type of estimators,
    fitting with class weights (weight of class 0, weight of class 1),
    prediction, and the two directions of the serialisation. *)
Class Estimator := {
  LogisticRegression : Type;
  sk_fit : float_quotient * float_quotient → DataFrame → list Z
           → result LogisticRegression;
  sk_predict : LogisticRegression → DataFrame → result (list Z);
  pickle_dumps : LogisticRegression → list Byte.byte;
  pickle_loads : list Byte.byte → result LogisticRegression
}.

(** ** challenge/model.py *)

Module DelayModel.

(** A raw flight as the encoder reads it: the three columns [OPERA],
    [TIPOVUELO] and [MES] of one row. *)
Record FlightRecord := {
  OPERA : string;
  TIPOVUELO : string;
  MES : Z
}.

#[global] Instance FlightRecord_eq_dec : EqDecision FlightRecord.
Proof. solve_decision. Defined.

(** The raw frame handed to [preprocess]: either a frame with the three
    columns, one row per flight, or the frame [pd.DataFrame([])] that has
    no column at all. *)
Inductive RawFrame :=
| NoColumns
| Flights (rows : list FlightRecord).

(** [pd.DataFrame(rows)] for a list of row dicts. *)
Definition DataFrame_of_rows (rows : list FlightRecord) : RawFrame :=
  match rows with
  | [] => NoColumns
  | _ => Flights rows
  end.

Definition TOP_10_FEATURES : list string := [
  "OPERA_Latin American Wings";
  "MES_7";
  "MES_10";
  "OPERA_Grupo LATAM";
  "MES_12";
  "TIPOVUELO_I";
  "MES_4";
  "MES_11";
  "OPERA_Sky Airline";
  "OPERA_Copa Air"
].

(** *** [pd.get_dummies] *)

Section get_dummies.
Context {A : Type} `{EqDecision A}.
Context (le : relation A) `{!RelDecision le}.
Context (str : A → string).

(** The levels of a column: its distinct values, sorted. *)
Definition levels (col : list A) : list A :=
  merge_sort le (remove_dups col).

(** The indicator column of one level, each cell by its numeric value. *)
Definition dummy (v : A) (col : list A) : list Z :=
  (λ x, if decide (x = v) then 1 else 0) <$> col.

(** One indicator column per level, labelled [prefix_level]. *)
Definition get_dummies (prefix : string) (col : list A)
  : list (string * list Z) :=
  (λ v, (prefix +:+ "_" +:+ str v, dummy v col)) <$> levels col.
End get_dummies.

(** *** [preprocess]

    The call [preprocess(data)] of the serving path; the training call
    computes its features by the same lines. *)

(** [pd.concat([...], axis=1)] of the three dummy frames. *)
Definition dummy_columns (rows : list FlightRecord) : list (string * list Z) :=
  get_dummies String.le id "OPERA" (OPERA <$> rows)
  ++ get_dummies String.le id "TIPOVUELO" (TIPOVUELO <$> rows)
  ++ get_dummies Z.le str_int "MES" (MES <$> rows).

(** [if feature not in features.columns: features[feature] = 0] *)
Definition ensure_feature (n : nat) (cols : list (string * list Z))
    (feature : string) : list (string * list Z) :=
  if decide (feature ∈ cols.*1) then cols
  else cols ++ [(feature, replicate n 0)].

(** [features[names]]: for each name, every column that carries it. *)
Definition select (names : list string) (cols : list (string * list Z))
  : list (string * list Z) :=
  names ≫= (λ f, filter (λ c, c.1 = f) cols).

Definition preprocess (data : RawFrame) : result DataFrame :=
  match data with
  | NoColumns => Raise KeyError
  | Flights rows =>
      let n := length rows in
      let features := dummy_columns rows in
      let features := foldl (ensure_feature n) features TOP_10_FEATURES in
      Ok {| index_len := n; columns := select TOP_10_FEATURES features |}
  end.

(** Row [i] of a frame. *)
Definition row (df : DataFrame) (i : nat) : option (list Z) :=
  mapM (λ c, c.2 !! i) (columns df).

(** *** [_generate_delay_target] *)

Section delay_target.
Context `{Builtins}.

(** [datetime.strptime(row[k], '%Y-%m-%d %H:%M:%S')] for a row of the
    training frame: a missing label is a [KeyError], a value that is
    no str a [TypeError], text that does not parse a [ValueError]. *)
Definition parse_field (row : gmap string pyval) (k : string)
  : result datetime :=
  match row !! k with
  | None => Raise KeyError
  | Some (VStr s) =>
      match strptime s with
      | Some d => Ok d
      | None => Raise ValueError
      end
  | Some _ => Raise TypeError
  end.

(** The body of the [try] block of [calculate_min_diff].  The number of
    seconds is an integer; its quotient by 60 is kept as the exact
    rational, which lies on the same side of 15 as the float. *)
Definition min_diff_try (row : gmap string pyval) : result Q :=
  fecha_o ← parse_field row "Fecha-O";
  fecha_i ← parse_field row "Fecha-I";
  Ok (total_seconds_between fecha_o fecha_i # 60).

(** [calculate_min_diff]: the bare [except] turns every exception
    into the value [0]. *)
Definition calculate_min_diff (row : gmap string pyval) : Q :=
  match min_diff_try row with
  | Ok min_diff => min_diff
  | Raise _ => 0
  end.

Definition threshold_in_minutes : Q := 15.

(** [np.where(min_diff > threshold_in_minutes, 1, 0)] on one row. *)
Definition delay_of_row (row : gmap string pyval) : Z :=
  if decide (threshold_in_minutes < calculate_min_diff row)%Q then 1 else 0.

(** The label column of a training frame, row by row. *)
Definition _generate_delay_target (data : list (gmap string pyval))
  : list Z :=
  delay_of_row <$> data.
End delay_target.

(** *** [fit], [predict], [save_model], [load_model]

    The attribute [_model] is [None] or a fitted estimator; a method that
    assigns it returns its new value.  Files are a finite map from path
    strings to contents: a directory of regular files that can be written,
    each named by one spelling of its path.  What the operating system
    adds to that (an empty path, a path that names a directory, two
    spellings of one path, the directories that [mkdir] creates) is not
    part of the model, and nothing below is stated about it. *)

Section estimator.
Context `{Estimator}.

(** [{1: n_y0 / len(target), 0: n_y1 / len(target)}], as the pair of
    the weight of class 0 and the weight of class 1; each weight is the
    float64 quotient of the two counts, which numpy computes without
    raising also for an empty target. *)
Definition class_weight (target : list Z) : float_quotient * float_quotient :=
  let n_y0 := length (filter (λ y, y = 0) target) in
  let n_y1 := length (filter (λ y, y = 1) target) in
  ({| dividend := n_y1; divisor := length target |},
   {| dividend := n_y0; divisor := length target |}).

Definition fit (features : DataFrame) (target : list Z)
  : result (option LogisticRegression) :=
  model ← sk_fit (class_weight target) features target;
  Ok (Some model).

Definition predict (_model : option LogisticRegression)
    (features : DataFrame) : result (list Z) :=
  match _model with
  | None => Ok (replicate (index_len features) 0)
  | Some model => sk_predict model features
  end.

Definition save_model (_model : option LogisticRegression)
    (filepath : string) (files : gmap string (list Byte.byte))
  : result (gmap string (list Byte.byte)) :=
  match _model with
  | None => Raise ValueError
  | Some model => Ok (<[filepath := pickle_dumps model]> files)
  end.

Definition load_model (filepath : string)
    (files : gmap string (list Byte.byte))
  : result (option LogisticRegression) :=
  match files !! filepath with
  | None => Raise FileNotFoundError
  | Some blob => model ← pickle_loads blob; Ok (Some model)
  end.
End estimator.

End DelayModel.

(** ** challenge/api.py *)

Module Api.
Import DelayModel.

Definition valid_ops : list string := [
  "Aerolineas Argentinas";
  "Grupo LATAM";
  "Sky Airline";
  "Copa Air";
  "Latin American Wings"
].

Definition bad_request : exn := HTTPException 400.

(** The three conditions of the validator on a converted record. *)
Definition acceptable (r : FlightRecord) : Prop :=
  OPERA r ∈ valid_ops ∧ TIPOVUELO r ∈ ["I"; "N"] ∧ 1 ≤ MES r ≤ 12.

#[global] Instance acceptable_dec r : Decision (acceptable r).
Proof. unfold acceptable. apply _. Defined.

(** A month as the specification words it: an integer in [1,12]. *)
Definition integer_in_1_12 (mes : pyval) : Prop :=
  ∃ z : Z, mes = VInt z ∧ 1 ≤ z ≤ 12.

(** [all(k in f for k in keys)]: stops at the first key that is
    missing. *)
Fixpoint all_in (keys : list string) (f : pyval) : result bool :=
  match keys with
  | [] => Ok true
  | k :: keys' =>
      b ← contains k f;
      if b : bool then all_in keys' f else Ok false
  end.

(** [v in set] for a set of strs; when it holds, [v] is the str that is
    returned.  A list or a dict is unhashable. *)
Definition member (v : pyval) (set : list string) : result (option string) :=
  match v with
  | VStr s => Ok (if decide (s ∈ set) then Some s else None)
  | VList _ | VDict _ => Raise TypeError
  | VNone | VBool _ | VInt _ | VFloat _ => Ok None
  end.

Section validate.
Context `{Builtins}.

(** The body of the loop of [_validate] for one element [f]: the row
    it appends, or the exception it raises.  The three tests of the
    [or] are evaluated left to right, [int(mes)] last. *)
Definition validate_flight (f : pyval) : result FlightRecord :=
  present ← all_in ["OPERA"; "TIPOVUELO"; "MES"] f;
  if negb present then Raise bad_request else
  opera ← getitem f "OPERA";
  tipo ← getitem f "TIPOVUELO";
  mes ← getitem f "MES";
  opera_ok ← member opera valid_ops;
  match opera_ok with
  | None => Raise bad_request
  | Some opera =>
      tipo_ok ← member tipo ["I"; "N"];
      match tipo_ok with
      | None => Raise bad_request
      | Some tipo =>
          m ← py_int mes;
          if negb ((1 <=? m) && (m <=? 12)) then Raise bad_request
          else Ok {| OPERA := opera; TIPOVUELO := tipo; MES := m |}
      end
  end.

(** The [for] loop, with the rows appended so far. *)
Fixpoint validate_loop (flights : list pyval) (rows : list FlightRecord)
  : result (list FlightRecord) :=
  match flights with
  | [] => Ok rows
  | f :: flights' =>
      r ← validate_flight f;
      validate_loop flights' (rows ++ [r])
  end.

Definition _validate (payload : gmap string pyval)
  : result (list FlightRecord) :=
  match payload !! "flights" with
  | Some (VList flights) => validate_loop flights []
  | _ => Raise bad_request
  end.

(** The element [f] is a JSON object whose OPERA and TIPOVUELO are the
    strs of [r] and whose MES is converted by [int] to the month of
    [r]. *)
Definition reads_as (f : pyval) (r : FlightRecord) : Prop :=
  ∃ (d : gmap string pyval) (mes : pyval),
    f = VDict d
    ∧ d !! "OPERA" = Some (VStr (OPERA r))
    ∧ d !! "TIPOVUELO" = Some (VStr (TIPOVUELO r))
    ∧ d !! "MES" = Some mes
    ∧ py_int mes = Ok (MES r).

(** A raw record that meets the three conditions of the validator: a
    known operator, a known flight type and a MES that [int] converts
    into [1,12]. *)
Definition valid_flight (f : pyval) : Prop :=
  ∃ r, reads_as f r ∧ acceptable r.

(** A raw record as a JSON body can carry it: an object whose OPERA and
    TIPOVUELO, where present, are scalars, and whose MES, where present,
    is a value that [int] converts. *)
Definition json_record (f : pyval) : Prop :=
  ∃ d : gmap string pyval,
    f = VDict d
    ∧ (∀ v, d !! "OPERA" = Some v → hashable v)
    ∧ (∀ v, d !! "TIPOVUELO" = Some v → hashable v)
    ∧ (∀ v, d !! "MES" = Some v → ∃ m, py_int v = Ok m).

Context `{Estimator}.

(** The handler of [POST /predict], for the current value of the
    module-level model; its result is the list under ["predict"]. *)
Definition post_predict (_model : option LogisticRegression)
    (payload : gmap string pyval) : result (list Z) :=
  rows ← _validate payload;
  let df := DataFrame_of_rows rows in
  features ← preprocess df;
  predict _model features.
End validate.

End Api.

(** ** Text *)

Module PyStr.

(** [s.split(sep)] for a separator of one character. *)
Fixpoint split (sep : ascii) (s : string) : list string :=
  match s with
  | EmptyString => [EmptyString]
  | String c s' =>
      if decide (c = sep) then EmptyString :: split sep s'
      else match split sep s' with
           | part :: parts => String c part :: parts
           | [] => [String c EmptyString]
           end
  end.

(** [sep.join(parts)]. *)
Fixpoint join (sep : string) (parts : list string) : string :=
  match parts with
  | [] => EmptyString
  | part :: parts' =>
      match parts' with
      | [] => part
      | _ :: _ => part +:+ sep +:+ join sep parts'
      end
  end.

(** The number of occurrences of a character. *)
Fixpoint count (c : ascii) (s : string) : nat :=
  match s with
  | EmptyString => 0
  | String c' s' => (if decide (c' = c) then 1 else 0) + count c s'
  end.

End PyStr.

(** ** challenge/model.py, the training call of [preprocess] *)

Module Training.
Import DelayModel.

(** A frame as [pd.read_csv] loads it: the columns [OPERA], [TIPOVUELO]
    and [MES], typed, and the other columns with their labels; a row is the
    typed record and the cells of the other columns, one for each of their
    labels. *)
Record TrainingFrame := {
  other_columns : list string;
  rows : list (FlightRecord * gmap string pyval)
}.

(** A column handed back as target: the labels, the minute differences,
    a typed column or the cells of another column. *)
Inductive column :=
| IntColumn (cells : list Z)
| RatColumn (cells : list Q)
| StrColumn (cells : list string)
| CellColumn (cells : list pyval).

(** [if target_column:] is false for [None] and for the empty str. *)
Definition truthy (v : option string) : bool :=
  match v with
  | Some (String _ _) => true
  | Some EmptyString | None => false
  end.

Section training.
Context `{Builtins}.

(** [data.columns] after [data['delay'] = self._generate_delay_target(data)],
    which also assigns [data['min_diff']]. *)
Definition columns_with_target (data : TrainingFrame) : list string :=
  ["OPERA"; "TIPOVUELO"; "MES"] ++ other_columns data ++ ["min_diff"; "delay"].

(** [data[[target_column]]] on that frame; the two assigned columns
    replace columns of the same label. *)
Definition target_of (data : TrainingFrame) (target_column : string)
  : option column :=
  if decide (target_column = "delay") then
    Some (IntColumn (_generate_delay_target (rows data).*2))
  else if decide (target_column = "min_diff") then
    Some (RatColumn (calculate_min_diff <$> (rows data).*2))
  else if decide (target_column = "OPERA") then
    Some (StrColumn (OPERA <$> (rows data).*1))
  else if decide (target_column = "TIPOVUELO") then
    Some (StrColumn (TIPOVUELO <$> (rows data).*1))
  else if decide (target_column = "MES") then
    Some (IntColumn (MES <$> (rows data).*1))
  else if decide (target_column ∈ other_columns data) then
    Some (CellColumn ((λ r, default (VFloat FNaN) (r.2 !! target_column))
                        <$> rows data))
  else None.

(** [preprocess(data, target_column)]: the features, and the target when
    a target column is asked for. *)
Definition preprocess (data : TrainingFrame) (target_column : option string)
  : result (DataFrame * option column) :=
  features ← DelayModel.preprocess (Flights (rows data).*1);
  if truthy target_column then
    match target_column ≫= target_of data with
    | Some target => Ok (features, Some target)
    | None => Raise ValueError
    end
  else Ok (features, None).

Context `{Estimator}.

(** scripts/train_model.py, [main] from the loaded frame on: preprocess
    with the target [delay], fit, save. *)
Definition train_and_save (data : TrainingFrame) (output_path : string)
    (files : gmap string (list Byte.byte))
  : result (gmap string (list Byte.byte)) :=
  r ← preprocess data (Some "delay");
  match r with
  | (features, Some (IntColumn target)) =>
      model ← fit features target;
      save_model model output_path files
  | _ => Raise TypeError
  end.
End training.

End Training.

(** ** challenge/api.py, the startup hook *)

Module Startup.
Import DelayModel.

(** The services behind the hook.  [vertex_models project location name]
    is [aiplatform.init] followed by [aiplatform.Model.list]: the artifact
    URIs of the models found, in the order returned.  [gcs_download project
    bucket blob] is the content that [download_to_filename] writes. *)
Class Cloud := {
  vertex_models : string → string → string → result (list string);
  gcs_download : string → string → string → result (list Byte.byte)
}.

(** A value of [os.getenv] that [all] counts as set. *)
Definition is_set (v : option string) : bool :=
  match v with
  | Some (String _ _) => true
  | Some EmptyString | None => false
  end.

(** [artifact_uri.split("/")[2]] and
    ["/".join(artifact_uri.split("/")[3:]) + "model.pkl"]; [None] when the
    index is out of range. *)
Definition bucket_and_blob (artifact_uri : string) : option (string * string) :=
  bucket_name ← PyStr.split "/" artifact_uri !! 2%nat;
  Some (bucket_name,
        PyStr.join "/" (drop 3 (PyStr.split "/" artifact_uri)) +:+ "model.pkl").

Section startup.
Context `{Estimator} `{Cloud}.

(** [load_model_on_startup]: the value of [_model._model] when the hook
    returns.  [tmp_name] is the name of the temporary file.  Every
    exception of the [try] block is caught and leaves the model as it
    was. *)
Definition load_model_on_startup (env : gmap string string)
    (tmp_name : string) (files : gmap string (list Byte.byte))
    (_model : option LogisticRegression) : option LogisticRegression :=
  let project_id := env !! "GCP_PROJECT_ID" in
  let location := env !! "GCP_LOCATION" in
  let model_name := env !! "VERTEX_MODEL_NAME" in
  if negb (is_set project_id && is_set location && is_set model_name)
  then _model
  else
    match project_id, location, model_name with
    | Some project_id, Some location, Some model_name =>
        match vertex_models project_id location model_name with
        | Ok (latest_model :: _) =>
            match bucket_and_blob latest_model with
            | Some (bucket_name, blob_path) =>
                match gcs_download project_id bucket_name blob_path with
                | Ok blob =>
                    match load_model tmp_name (<[tmp_name := blob]> files) with
                    | Ok loaded => loaded
                    | Raise _ => _model
                    end
                | Raise _ => _model
                end
            | None => _model
            end
        | Ok [] | Raise _ => _model
        end
    | _, _, _ => _model
    end.
End startup.

End Startup.

(** ** scripts/upload_to_vertex.py, the names that [main] builds *)

Module UploadScript.

Definition version_dir (timestamp : string) : string :=
  "models/flight-delay/v_" +:+ timestamp.

Definition blob_name (timestamp : string) : string :=
  version_dir timestamp +:+ "/model.pkl".

(** The URI that [upload_to_gcs] returns. *)
Definition gcs_uri (bucket_name blob_name : string) : string :=
  "gs://" +:+ bucket_name +:+ "/" +:+ blob_name.

(** The directory URI registered in the model registry. *)
Definition artifact_uri (bucket_name timestamp : string) : string :=
  "gs://" +:+ bucket_name +:+ "/" +:+ version_dir timestamp +:+ "/".

End UploadScript.

(** ** The encoder of the specification

    The equality-test form: each catalog entry is an attribute and a
    literal, and its indicator is [1] when the record's attribute equals
    the literal. *)

Module FeatureEncoderSpec.
Import DelayModel.

Inductive entry :=
| OperaIs (literal : string)
| TipoIs (literal : string)
| MesIs (literal : Z).

#[global] Instance entry_eq_dec : EqDecision entry.
Proof. solve_decision. Defined.

Definition catalog : list entry := [
  OperaIs "Latin American Wings";
  MesIs 7;
  MesIs 10;
  OperaIs "Grupo LATAM";
  MesIs 12;
  TipoIs "I";
  MesIs 4;
  MesIs 11;
  OperaIs "Sky Airline";
  OperaIs "Copa Air"
].

Definition holds (e : entry) (r : FlightRecord) : Prop :=
  match e with
  | OperaIs s => OPERA r = s
  | TipoIs s => TIPOVUELO r = s
  | MesIs m => MES r = m
  end.

#[global] Instance holds_dec e r : Decision (holds e r).
Proof. destruct e; simpl; apply _. Defined.

Definition indicator (e : entry) (r : FlightRecord) : Z :=
  if decide (holds e r) then 1 else 0.

(** The feature vector of one record. *)
Definition encode (r : FlightRecord) : list Z :=
  (λ e, indicator e r) <$> catalog.

(** The column label of an entry. *)
Definition label (e : entry) : string :=
  match e with
  | OperaIs s => "OPERA_" +:+ s
  | TipoIs s => "TIPOVUELO_" +:+ s
  | MesIs m => "MES_" +:+ str_int m
  end.

(** The indicator column of an entry over a batch, with its label. *)
Definition column_of (rows : list FlightRecord) (e : entry)
  : string * list Z :=
  (label e, (indicator e) <$> rows).

(** The levels that occur in a batch, as entries. *)
Definition batch_levels (rows : list FlightRecord) : list entry :=
  (OperaIs <$> levels String.le (OPERA <$> rows))
  ++ (TipoIs <$> levels String.le (TIPOVUELO <$> rows))
  ++ (MesIs <$> levels Z.le (MES <$> rows)).
End FeatureEncoderSpec.

(** ** Implementations of the library interfaces

    Small executable implementations, used to run the model on concrete
    inputs: decimal integer literals, zero-padded timestamps, and an
    estimator that predicts the more frequent label. *)

Module Reference.

Definition digit (c : ascii) : option Z :=
  let n := Z.of_N (N_of_ascii c) in
  if (48 <=? n) && (n <=? 57) then Some (n - 48) else None.

Definition number (cs : list ascii) : option Z :=
  foldl (λ acc c, a ← acc; d ← digit c; Some (10 * a + d)) (Some 0) cs.

Definition days_in_month (y m : Z) : Z :=
  if m =? 2 then (if is_leap y then 29 else 28)
  else if (m =? 4) || (m =? 6) || (m =? 9) || (m =? 11) then 30
  else 31.

Definition valid_datetime (d : datetime) : bool :=
  (1 <=? year d) && (1 <=? month d) && (month d <=? 12)
  && (1 <=? day d) && (day d <=? days_in_month (year d) (month d))
  && (hour d <=? 23) && (minute d <=? 59) && (second d <=? 59).

(** [YYYY-MM-DD HH:MM:SS], every field zero-padded. *)
Definition parse_timestamp (s : string) : option datetime :=
  match list_ascii_of_string s with
  | [y1; y2; y3; y4; sep1; m1; m2; sep2; d1; d2; sep3;
     h1; h2; sep4; n1; n2; sep5; s1; s2] =>
      if bool_decide ([sep1; sep2; sep3; sep4; sep5]
                      = ["-"; "-"; " "; ":"; ":"]%char)
      then
        y ← number [y1; y2; y3; y4];
        m ← number [m1; m2];
        d ← number [d1; d2];
        h ← number [h1; h2];
        n ← number [n1; n2];
        sec ← number [s1; s2];
        let dt := {| year := y; month := m; day := d;
                     hour := h; minute := n; second := sec |} in
        if valid_datetime dt then Some dt else None
      else None
  | _ => None
  end.

(** An optional sign and decimal digits. *)
Definition decimal_int (s : string) : result Z :=
  match NilZero.int_of_string s with
  | Some d => Ok (Z.of_int d)
  | None => Raise ValueError
  end.

Definition builtins : Builtins :=
  {| int_of_str := decimal_int; strptime := parse_timestamp |}.

Definition majority (target : list Z) : bool :=
  let n_y0 := length (filter (λ y, y = 0) target) in
  let n_y1 := length (filter (λ y, y = 1) target) in
  bool_decide (n_y0 < n_y1)%nat.

Definition estimator : Estimator := {|
  LogisticRegression := bool;
  sk_fit := λ _ features target,
    if bool_decide (target = [] ∨ index_len features ≠ length target)
    then Raise ValueError else Ok (majority target);
  sk_predict := λ model features,
    Ok (replicate (index_len features) (if model then 1 else 0));
  pickle_dumps := λ model, [if model then Byte.x01 else Byte.x00];
  pickle_loads := λ blob,
    match blob with
    | [Byte.x00] => Ok false
    | [Byte.x01] => Ok true
    | _ => Raise UnpicklingError
    end
|}.

(** A registry with one model and a bucket with its pickled estimator. *)
Definition cloud : Startup.Cloud := {|
  Startup.vertex_models := λ project location name,
    if decide (name = "flight-delay-model")
    then Ok ["gs://my-models-bucket/models/flight-delay/v_20240101_120000/"]
    else Ok [];
  Startup.gcs_download := λ project bucket blob,
    if decide (bucket = "my-models-bucket"
               ∧ blob = "models/flight-delay/v_20240101_120000/model.pkl")
    then Ok [Byte.x01]
    else Raise FileNotFoundError
|}.

End Reference.

(** ** Sample data *)

Module Sample.
Import DelayModel.

Definition latam_july : FlightRecord :=
  {| OPERA := "Grupo LATAM"; TIPOVUELO := "I"; MES := 7 |}.
Definition sky_december : FlightRecord :=
  {| OPERA := "Sky Airline"; TIPOVUELO := "N"; MES := 12 |}.
Definition avianca_july : FlightRecord :=
  {| OPERA := "Avianca"; TIPOVUELO := "I"; MES := 7 |}.

(** A row of the training frame with its two timestamps. *)
Definition training_row (fecha_i fecha_o : pyval) : gmap string pyval :=
  {[ "Fecha-I" := fecha_i; "Fecha-O" := fecha_o;
     "OPERA" := VStr "Grupo LATAM"; "TIPOVUELO" := VStr "I";
     "MES" := VInt 1 ]}.

(** An element of ["flights"]. *)
Definition fields (opera tipo mes : pyval) : gmap string pyval :=
  {[ "OPERA" := opera; "TIPOVUELO" := tipo; "MES" := mes ]}.

Definition flight (opera tipo mes : pyval) : pyval :=
  VDict (fields opera tipo mes).

Definition body (flights : list pyval) : gmap string pyval :=
  {[ "flights" := VList flights ]}.

(** Scheduled 23:50, actual six minutes past midnight: 16 minutes. *)
Definition late_row : gmap string pyval :=
  training_row (VStr "2017-01-01 23:50:00") (VStr "2017-01-02 00:06:00").

Definition late_scheduled : datetime :=
  {| year := 2017; month := 1; day := 1;
     hour := 23; minute := 50; second := 0 |}.
Definition late_actual : datetime :=
  {| year := 2017; month := 1; day := 2;
     hour := 0; minute := 6; second := 0 |}.
Definition late_diff : Z := total_seconds_between late_actual late_scheduled.

(** Exactly 15 minutes. *)
Definition just_in_time_row : gmap string pyval :=
  training_row (VStr "2017-02-28 23:50:00") (VStr "2017-03-01 00:05:00").

(** Five minutes early. *)
Definition early_row : gmap string pyval :=
  training_row (VStr "2016-12-31 10:00:00") (VStr "2016-12-31 09:55:00").

(** The actual departure is written day first. *)
Definition malformed_row : gmap string pyval :=
  training_row (VStr "2017-01-01 23:50:00") (VStr "02/01/2017 03:00").

(** The actual departure is a missing value. *)
Definition nan_row : gmap string pyval :=
  training_row (VStr "2017-01-01 23:50:00") (VFloat FNaN).

(** A row of a frame without the column [Fecha-O]. *)
Definition row_without_fecha_o : gmap string pyval :=
  {[ "Fecha-I" := VStr "2017-01-01 23:50:00";
     "OPERA" := VStr "Grupo LATAM" ]}.

(** The float [7.9], exactly. *)
Definition float_7_9 : pyfloat :=
  FNum (4447304632028365 # 562949953421312).

(** The environment of a configured server. *)
Definition env : gmap string string :=
  {[ "GCP_PROJECT_ID" := "my-project"; "GCP_LOCATION" := "us-central1";
     "VERTEX_MODEL_NAME" := "flight-delay-model" ]}.

(** A training frame of two flights, the first one late. *)
Definition training_frame : Training.TrainingFrame :=
  {| Training.other_columns := ["Fecha-I"; "Fecha-O"];
     Training.rows :=
       [(latam_july,
         {[ "Fecha-I" := VStr "2017-01-01 23:50:00";
            "Fecha-O" := VStr "2017-01-02 00:06:00" ]});
        (sky_december,
         {[ "Fecha-I" := VStr "2017-02-28 23:50:00";
            "Fecha-O" := VStr "2017-03-01 00:05:00" ]})] |}.
End Sample.

(** * Properties *)

(** ** The feature encoder *)

Section encoder_facts.
Import DelayModel FeatureEncoderSpec.

Lemma to_int_not_nil (z : Z) :
  Z.to_int z ≠ Decimal.Pos Decimal.Nil ∧ Z.to_int z ≠ Decimal.Neg Decimal.Nil.
Proof.
  rewrite <- (DecimalZ.of_to z) at 1 2. rewrite DecimalZ.to_of.
  destruct (Z.to_int z) as [d|d]; simpl.
  - split; [|discriminate]. intros [= E]. by apply DecimalFacts.unorm_nonnil in E.
  - destruct (Decimal.nzhead d) eqn:E; split; discriminate.
Qed.

Lemma str_int_inj (a b : Z) : str_int a = str_int b → a = b.
Proof.
  unfold str_int. intros E. apply DecimalZ.to_int_inj.
  destruct (to_int_not_nil a) as [Ha1 Ha2], (to_int_not_nil b) as [Hb1 Hb2].
  pose proof (NilZero.isi _ Ha1 Ha2) as Ia.
  pose proof (NilZero.isi _ Hb1 Hb2) as Ib.
  rewrite E in Ia. congruence.
Qed.

Lemma label_inj (e e' : entry) : label e = label e' → e = e'.
Proof.
  destruct e, e'; simpl; intros E; try discriminate;
    injection E as E; f_equal; auto using str_int_inj.
Qed.

Lemma elem_of_levels {A} `{EqDecision A} (le : relation A)
    `{!RelDecision le} (col : list A) (v : A) :
  v ∈ levels le col ↔ v ∈ col.
Proof.
  unfold levels. rewrite merge_sort_Permutation. apply elem_of_remove_dups.
Qed.

Lemma NoDup_levels {A} `{EqDecision A} (le : relation A)
    `{!RelDecision le} (col : list A) :
  NoDup (levels le col).
Proof.
  unfold levels. rewrite merge_sort_Permutation. apply NoDup_remove_dups.
Qed.

Lemma dummy_columns_batch_levels rows :
  dummy_columns rows = column_of rows <$> batch_levels rows.
Proof.
  unfold dummy_columns, batch_levels, get_dummies.
  rewrite !fmap_app, <- !list_fmap_compose.
  f_equal; [|f_equal]; apply list_fmap_ext; intros _ v _; unfold column_of; simpl;
    f_equal; unfold dummy; rewrite <- list_fmap_compose;
    apply list_fmap_ext; intros _ r _; unfold indicator; simpl;
    repeat case_decide; congruence.
Qed.

Lemma elem_of_batch_levels rows e :
  e ∈ batch_levels rows ↔ ∃ r, r ∈ rows ∧ holds e r.
Proof.
  unfold batch_levels. rewrite !elem_of_app, !list_elem_of_fmap.
  setoid_rewrite elem_of_levels. setoid_rewrite list_elem_of_fmap.
  split.
  - intros [(s & -> & r & -> & Hr)|[(s & -> & r & -> & Hr)|(s & -> & r & -> & Hr)]];
      exists r; simpl; auto.
  - intros (r & Hr & He). destruct e; simpl in He; subst; eauto 10.
Qed.

Lemma NoDup_batch_levels rows : NoDup (batch_levels rows).
Proof.
  unfold batch_levels. rewrite !NoDup_app. repeat split.
  - apply NoDup_fmap_2; [intros ?? [=]; done | apply NoDup_levels].
  - intros e. rewrite elem_of_app, !list_elem_of_fmap.
    intros (? & -> & _) [(? & [=] & _)|(? & [=] & _)].
  - apply NoDup_fmap_2; [intros ?? [=]; done | apply NoDup_levels].
  - intros e. rewrite !list_elem_of_fmap. intros (? & -> & _) (? & [=] & _).
  - apply NoDup_fmap_2; [intros ?? [=]; done | apply NoDup_levels].
Qed.

(** An entry that no row of the batch satisfies has the zero column. *)
Lemma absent_column rows e :
  e ∉ batch_levels rows →
  (indicator e) <$> rows = replicate (length rows) 0.
Proof.
  rewrite elem_of_batch_levels. intros Hno.
  assert (Forall (λ r, indicator e r = 0) rows) as Hall.
  { apply Forall_forall. intros r Hr. unfold indicator.
    case_decide; [exfalso; eauto | done]. }
  clear Hno. induction Hall as [|r rows Hr _ IH]; [done|].
  rewrite fmap_cons, Hr, IH. done.
Qed.

Lemma label_elem_of rows (L : list entry) e :
  label e ∈ (column_of rows <$> L).*1 ↔ e ∈ L.
Proof.
  rewrite <- list_fmap_compose. rewrite list_elem_of_fmap. split.
  - intros (e' & E & He'). simpl in E. apply label_inj in E. by subst.
  - intros He. by exists e.
Qed.

(** One turn of the loop that adds the missing features. *)
Lemma ensure_feature_step rows (L : list entry) e :
  (e ∉ L → (indicator e) <$> rows = replicate (length rows) 0) →
  ensure_feature (length rows) (column_of rows <$> L) (label e)
  = column_of rows <$> (if decide (e ∈ L) then L else L ++ [e]).
Proof.
  intros Hzero. unfold ensure_feature.
  destruct (decide (e ∈ L)) as [Hin|Hout].
  - rewrite decide_True by (by apply label_elem_of). done.
  - rewrite decide_False by (by rewrite label_elem_of).
    rewrite fmap_app. simpl. unfold column_of at 3. by rewrite Hzero.
Qed.

(** The loop keeps a frame of indicator columns with distinct labels and
    ends with every requested feature in it. *)
Lemma ensure_features rows (cat L : list entry) :
  NoDup L →
  (∀ e, e ∉ L → (indicator e) <$> rows = replicate (length rows) 0) →
  ∃ L', foldl (ensure_feature (length rows)) (column_of rows <$> L)
          (label <$> cat) = column_of rows <$> L'
        ∧ NoDup L' ∧ ∀ e, e ∈ L ∨ e ∈ cat → e ∈ L'.
Proof.
  revert L. induction cat as [|e cat IH]; intros L HL Hzero.
  - exists L. split_and!; [done..|].
    intros e [He|He]; [done | by apply elem_of_nil in He].
  - rewrite fmap_cons. simpl. rewrite ensure_feature_step by auto.
    destruct (decide (e ∈ L)) as [Hin|Hout].
    + destruct (IH L HL Hzero) as (L' & E & HL' & Hcat).
      exists L'. split_and!; [done..|].
      intros e'. rewrite elem_of_cons. intros [?|[->|?]]; auto.
    + destruct (IH (L ++ [e])) as (L' & E & HL' & Hcat).
      * apply NoDup_app. split_and!; [done| |apply NoDup_singleton].
        intros e' He' ->%list_elem_of_singleton. done.
      * intros e' He'. apply Hzero. intros ?. apply He', elem_of_app. auto.
      * exists L'. split_and!; [done..|].
        intros e'. rewrite elem_of_cons. intros [?|[->|?]];
          apply Hcat; rewrite ?elem_of_app, ?list_elem_of_singleton; auto.
Qed.

Lemma filter_label_absent rows (L : list entry) e :
  e ∉ L → filter (λ c, c.1 = label e) (column_of rows <$> L) = [].
Proof.
  induction L as [|e' L IH]; intros He; [done|].
  apply not_elem_of_cons in He as [Hne He].
  rewrite fmap_cons, filter_cons, decide_False; [by apply IH|].
  simpl. intros E%label_inj. done.
Qed.

Lemma filter_label rows (L : list entry) e :
  NoDup L → e ∈ L →
  filter (λ c, c.1 = label e) (column_of rows <$> L) = [column_of rows e].
Proof.
  induction 1 as [|e' L Hnot HL IH]; intros He.
  - by apply elem_of_nil in He.
  - rewrite fmap_cons, filter_cons.
    destruct (decide (e' = e)) as [->|Hne].
    + rewrite decide_True by done. by rewrite filter_label_absent.
    + rewrite decide_False by (simpl; intros E%label_inj; done).
      apply IH. by apply elem_of_cons in He as [->|He].
Qed.

Lemma select_labels rows (cat L : list entry) :
  NoDup L → (∀ e, e ∈ cat → e ∈ L) →
  select (label <$> cat) (column_of rows <$> L) = column_of rows <$> cat.
Proof.
  intros HL. unfold select.
  induction cat as [|e cat IH]; intros Hcat; [done|].
  rewrite !fmap_cons, bind_cons, filter_label, IH; [done| |done|].
  - intros e' He'. apply Hcat. by right.
  - apply Hcat. by left.
Qed.

Lemma labels_of_catalog : label <$> catalog = TOP_10_FEATURES.
Proof. reflexivity. Qed.

(** [preprocess] returns the frame of the ten indicator columns. *)
Lemma preprocess_columns rows :
  preprocess (Flights rows)
  = Ok {| index_len := length rows; columns := column_of rows <$> catalog |}.
Proof.
  unfold preprocess. do 2 f_equal.
  rewrite dummy_columns_batch_levels, <- labels_of_catalog.
  destruct (ensure_features rows catalog (batch_levels rows))
    as (L' & -> & HL' & Hcat).
  - apply NoDup_batch_levels.
  - apply absent_column.
  - apply select_labels; auto.
Qed.

Lemma row_of_columns rows (cat : list entry) i r :
  rows !! i = Some r →
  mapM (λ c : string * list Z, c.2 !! i) (column_of rows <$> cat)
  = Some ((λ e, indicator e r) <$> cat).
Proof.
  intros Hi. induction cat as [|e cat IH]; [done|].
  rewrite !fmap_cons. cbn [mapM column_of snd].
  rewrite list_lookup_fmap, Hi. simpl. by rewrite IH.
Qed.
End encoder_facts.

Section encoder_claims.
Import DelayModel FeatureEncoderSpec.

(** C1. For every batch and every record of it, [preprocess] returns a
    frame whose labels are the ten catalog features in their order and
    whose row for that record is the vector of the ten equality tests on
    the record's own OPERA, TIPOVUELO and MES; encoding the record alone
    gives the same vector.  The dummy-encode-then-reindex code therefore
    agrees with the per-record indicator function [encode]. *)
Theorem preprocess_is_indicator_encoding
    (rows : list FlightRecord) (i : nat) (r : FlightRecord) :
  rows !! i = Some r →
  ∃ batch alone,
    preprocess (Flights rows) = Ok batch
    ∧ preprocess (Flights [r]) = Ok alone
    ∧ (columns batch).*1 = TOP_10_FEATURES
    ∧ length (encode r) = 10%nat
    ∧ row batch i = Some (encode r)
    ∧ row alone 0 = Some (encode r).
Proof.
  intros Hi. eexists _, _.
  split; [apply preprocess_columns|].
  split; [apply preprocess_columns|].
  unfold row. cbn [columns]. split_and!.
  - by rewrite <- list_fmap_compose.
  - done.
  - by apply row_of_columns.
  - by apply row_of_columns.
Qed.

Lemma preprocess_is_indicator_encoding_witness :
  [Sample.latam_july; Sample.sky_december; Sample.avianca_july] !! 2%nat
    = Some Sample.avianca_july
  ∧ ∃ batch alone,
    preprocess (Flights [Sample.latam_july; Sample.sky_december;
                         Sample.avianca_july]) = Ok batch
    ∧ preprocess (Flights [Sample.avianca_july]) = Ok alone
    ∧ (columns batch).*1 = TOP_10_FEATURES
    ∧ length (encode Sample.avianca_july) = 10%nat
    ∧ row batch 2 = Some (encode Sample.avianca_july)
    ∧ row alone 0 = Some (encode Sample.avianca_july).
Proof.
  split; [reflexivity|].
  apply (preprocess_is_indicator_encoding
           [Sample.latam_july; Sample.sky_december; Sample.avianca_july]
           2 Sample.avianca_july).
  reflexivity.
Defined.

(** An operator outside the catalog leaves the three operator positions
    at zero; [MES_7] and [TIPOVUELO_I] are set. *)
Example encode_unknown_operator :
  encode Sample.avianca_july = [0; 1; 0; 0; 0; 1; 0; 0; 0; 0]
  ∧ (df ← preprocess (Flights [Sample.latam_july; Sample.avianca_july]);
     Ok (row df 1))
    = Ok (Some [0; 1; 0; 0; 0; 1; 0; 0; 0; 0]).
Proof. split; reflexivity. Qed.
End encoder_claims.

(** ** The label generator *)

Section label_facts.
Import DelayModel.
Context `{Builtins}.

Lemma parse_field_ok row k s d :
  row !! k = Some (VStr s) → strptime s = Some d →
  parse_field row k = Ok d.
Proof. unfold parse_field. by intros -> ->. Qed.

Lemma parse_field_unparseable row k s :
  row !! k = Some (VStr s) → strptime s = None →
  parse_field row k = Raise ValueError.
Proof. unfold parse_field. by intros -> ->. Qed.

(** A field that is missing or holds no str makes the read raise. *)
Lemma parse_field_not_str row k :
  (row !! k = None ∨ ∃ v, row !! k = Some v ∧ ∀ s, v ≠ VStr s) →
  ∃ e, parse_field row k = Raise e.
Proof.
  unfold parse_field. intros [->|(v & -> & Hv)]; [by eexists|].
  destruct v; try by eexists. by destruct (Hv s).
Qed.

Lemma parse_field_cases row k :
  (∃ d, parse_field row k = Ok d) ∨ (∃ e, parse_field row k = Raise e).
Proof. destruct (parse_field row k); eauto. Qed.

(** Whatever the [try] block raises, the handler returns [0], which is
    not above the threshold. *)
Lemma raise_gives_zero row e :
  min_diff_try row = Raise e →
  calculate_min_diff row = 0%Q ∧ delay_of_row row = 0.
Proof.
  intros E. unfold delay_of_row, calculate_min_diff. rewrite E. done.
Qed.

Lemma min_diff_parsed row s_o s_i fecha_o fecha_i :
  row !! "Fecha-O" = Some (VStr s_o) → row !! "Fecha-I" = Some (VStr s_i) →
  strptime s_o = Some fecha_o → strptime s_i = Some fecha_i →
  calculate_min_diff row = total_seconds_between fecha_o fecha_i # 60.
Proof.
  intros Ho Hi Po Pi. unfold calculate_min_diff, min_diff_try.
  rewrite (parse_field_ok _ _ _ _ Ho Po), (parse_field_ok _ _ _ _ Hi Pi).
  done.
Qed.

Lemma above_threshold (seconds : Z) :
  (threshold_in_minutes < seconds # 60)%Q ↔ 15 * 60 < seconds.
Proof. unfold threshold_in_minutes, Qlt. simpl. lia. Qed.

(** C2. When both timestamps parse, the label of the row is [1] exactly
    when the actual departure is more than 15 minutes (900 seconds) after
    the scheduled one, and [0] otherwise; so a difference of exactly 15
    minutes gives [0], 16 minutes gives [1], and an early departure
    gives [0]. *)
Theorem delay_label_iff_more_than_15_minutes
    (data : list (gmap string pyval)) (i : nat) (row : gmap string pyval)
    (s_o s_i : string) (actual scheduled : datetime) :
  data !! i = Some row →
  row !! "Fecha-O" = Some (VStr s_o) → row !! "Fecha-I" = Some (VStr s_i) →
  strptime s_o = Some actual → strptime s_i = Some scheduled →
  let diff := total_seconds_between actual scheduled in
  _generate_delay_target data !! i = Some (delay_of_row row)
  ∧ (delay_of_row row = 1 ↔ 15 * 60 < diff)
  ∧ (delay_of_row row = 0 ↔ diff ≤ 15 * 60)
  ∧ (diff = 15 * 60 → delay_of_row row = 0)
  ∧ (diff = 16 * 60 → delay_of_row row = 1)
  ∧ (diff < 0 → delay_of_row row = 0).
Proof.
  intros Hrow Ho Hi Po Pi diff.
  assert (delay_of_row row = if decide (15 * 60 < diff) then 1 else 0) as E.
  { unfold delay_of_row.
    rewrite (min_diff_parsed _ _ _ _ _ Ho Hi Po Pi). fold diff.
    pose proof (above_threshold diff).
    repeat case_decide; tauto. }
  split.
  { unfold _generate_delay_target. by rewrite list_lookup_fmap, Hrow. }
  rewrite E. case_decide; split_and!; try split; intros; try lia; done.
Qed.

(** C6. When a timestamp of the row is text that does not parse, the
    [try] block raises [ValueError], the handler returns the minute
    difference [0], and the label of the row is [0]. *)
Theorem unparseable_timestamp_gives_label_0
    (data : list (gmap string pyval)) (i : nat) (row : gmap string pyval)
    (s_o s_i : string) :
  data !! i = Some row →
  row !! "Fecha-O" = Some (VStr s_o) → row !! "Fecha-I" = Some (VStr s_i) →
  strptime s_o = None ∨ strptime s_i = None →
  min_diff_try row = Raise ValueError
  ∧ calculate_min_diff row = 0%Q
  ∧ _generate_delay_target data !! i = Some 0.
Proof.
  intros Hrow Ho Hi Hbad.
  assert (min_diff_try row = Raise ValueError) as E.
  { unfold min_diff_try. destruct (strptime s_o) as [d|] eqn:Po.
    - rewrite (parse_field_ok _ _ _ _ Ho Po). simpl.
      destruct Hbad as [?|Pi]; [done|].
      by rewrite (parse_field_unparseable _ _ _ Hi Pi).
    - by rewrite (parse_field_unparseable _ _ _ Ho Po). }
  destruct (raise_gives_zero _ _ E) as [? Hd]. split_and!; [done..|].
  unfold _generate_delay_target. by rewrite list_lookup_fmap, Hrow, <- Hd.
Qed.

(** C9. When [Fecha-O] or [Fecha-I] is missing from the row or holds a
    value that is no str, the [try] block raises as well (a [KeyError] or
    a [TypeError] unless the other field failed first), the bare [except]
    catches it, and the row gets minute difference [0] and label [0]. *)
Theorem missing_or_non_str_timestamp_gives_label_0
    (data : list (gmap string pyval)) (i : nat) (row : gmap string pyval)
    (k : string) :
  data !! i = Some row →
  k ∈ ["Fecha-O"; "Fecha-I"] →
  (row !! k = None ∨ ∃ v, row !! k = Some v ∧ ∀ s, v ≠ VStr s) →
  (∃ e, min_diff_try row = Raise e)
  ∧ calculate_min_diff row = 0%Q
  ∧ _generate_delay_target data !! i = Some 0.
Proof.
  intros Hrow Hk Hbad.
  assert (∃ e, min_diff_try row = Raise e) as [e E].
  { apply parse_field_not_str in Hbad as [e E]. unfold min_diff_try.
    apply elem_of_cons in Hk as [->|Hk].
    - rewrite E. by eexists.
    - apply list_elem_of_singleton in Hk as ->.
      destruct (parse_field_cases row "Fecha-O") as [[d ->]|[e' ->]];
        simpl; [rewrite E|]; by eexists. }
  destruct (raise_gives_zero _ _ E) as [? Hd]. split_and!; [by eexists|done|].
  unfold _generate_delay_target. by rewrite list_lookup_fmap, Hrow, <- Hd.
Qed.
End label_facts.

Section label_witnesses.
Import DelayModel Sample.

Lemma delay_label_iff_more_than_15_minutes_witness :
  ([just_in_time_row; late_row] !! 1%nat = Some late_row
   ∧ late_row !! "Fecha-O" = Some (VStr "2017-01-02 00:06:00")
   ∧ late_row !! "Fecha-I" = Some (VStr "2017-01-01 23:50:00")
   ∧ Reference.parse_timestamp "2017-01-02 00:06:00" = Some late_actual
   ∧ Reference.parse_timestamp "2017-01-01 23:50:00"
     = Some late_scheduled)
  ∧ late_diff = 16 * 60
  ∧ @_generate_delay_target Reference.builtins
      [just_in_time_row; late_row] !! 1%nat
    = Some (@delay_of_row Reference.builtins late_row)
  ∧ (@delay_of_row Reference.builtins late_row = 1 ↔ 15 * 60 < late_diff)
  ∧ (@delay_of_row Reference.builtins late_row = 0 ↔ late_diff ≤ 15 * 60)
  ∧ (late_diff = 15 * 60 → @delay_of_row Reference.builtins late_row = 0)
  ∧ (late_diff = 16 * 60 → @delay_of_row Reference.builtins late_row = 1)
  ∧ (late_diff < 0 → @delay_of_row Reference.builtins late_row = 0).
Proof.
  split; [vm_compute; repeat split; reflexivity|].
  split; [reflexivity|].
  apply (@delay_label_iff_more_than_15_minutes Reference.builtins
           [just_in_time_row; late_row] 1 late_row
           "2017-01-02 00:06:00" "2017-01-01 23:50:00"
           late_actual late_scheduled); reflexivity.
Defined.

Lemma unparseable_timestamp_gives_label_0_witness :
  ([late_row; malformed_row] !! 1%nat = Some malformed_row
   ∧ malformed_row !! "Fecha-O" = Some (VStr "02/01/2017 03:00")
   ∧ malformed_row !! "Fecha-I" = Some (VStr "2017-01-01 23:50:00")
   ∧ (Reference.parse_timestamp "02/01/2017 03:00" = None
      ∨ Reference.parse_timestamp "2017-01-01 23:50:00" = None))
  ∧ @min_diff_try Reference.builtins malformed_row = Raise ValueError
  ∧ @calculate_min_diff Reference.builtins malformed_row = 0%Q
  ∧ @_generate_delay_target Reference.builtins
      [late_row; malformed_row] !! 1%nat = Some 0.
Proof.
  split; [split_and!; [reflexivity..|left; reflexivity]|].
  apply (@unparseable_timestamp_gives_label_0 Reference.builtins
           [late_row; malformed_row] 1 malformed_row
           "02/01/2017 03:00" "2017-01-01 23:50:00");
    [reflexivity..|left; reflexivity].
Defined.

Lemma missing_or_non_str_timestamp_gives_label_0_witness :
  ([nan_row; late_row] !! 0%nat = Some nan_row
   ∧ "Fecha-O" ∈ ["Fecha-O"; "Fecha-I"]
   ∧ (nan_row !! "Fecha-O" = None
      ∨ ∃ v, nan_row !! "Fecha-O" = Some v ∧ ∀ s, v ≠ VStr s))
  ∧ (∃ e, @min_diff_try Reference.builtins nan_row = Raise e)
  ∧ @calculate_min_diff Reference.builtins nan_row = 0%Q
  ∧ @_generate_delay_target Reference.builtins
      [nan_row; late_row] !! 0%nat = Some 0.
Proof.
  assert (nan_row !! "Fecha-O" = None
          ∨ ∃ v, nan_row !! "Fecha-O" = Some v ∧ ∀ s, v ≠ VStr s) as Hbad.
  { right. exists (VFloat FNaN). split; [reflexivity | discriminate]. }
  assert ("Fecha-O" ∈ ["Fecha-O"; "Fecha-I"]) as Hk by apply list_elem_of_here.
  split; [split_and!; [reflexivity | exact Hk | exact Hbad]|].
  apply (@missing_or_non_str_timestamp_gives_label_0 Reference.builtins
           [nan_row; late_row] 0 nan_row "Fecha-O");
    [reflexivity | exact Hk | exact Hbad].
Defined.

(** The sample rows, run through the label generator: 16 minutes late,
    exactly 15 minutes, early, malformed text, a missing value, and a
    frame without the column. *)
Example sample_labels :
  @_generate_delay_target Reference.builtins
    [late_row; just_in_time_row; early_row; malformed_row; nan_row;
     row_without_fecha_o]
  = [1; 0; 0; 0; 0; 0].
Proof. reflexivity. Qed.
End label_witnesses.

(** ** The serving validator *)

Section validator_facts.
Import DelayModel Api Sample.
Context `{Builtins}.

Lemma all_in_dict (d : gmap string pyval) (keys : list string) :
  Forall (λ k, is_Some (d !! k)) keys → all_in keys (VDict d) = Ok true.
Proof.
  induction 1 as [|k keys Hk _ IH]; [done|].
  simpl. by rewrite bool_decide_true.
Qed.

(** The loop body on a record whose three fields are present, with a
    known operator and flight type: the outcome is the outcome of
    [int(mes)] followed by the range test. *)
Lemma validate_flight_known (d : gmap string pyval) opera tipo mes :
  d !! "OPERA" = Some (VStr opera) → d !! "TIPOVUELO" = Some (VStr tipo) →
  d !! "MES" = Some mes →
  opera ∈ valid_ops → tipo ∈ ["I"; "N"] →
  validate_flight (VDict d)
  = m ← py_int mes;
    if negb ((1 <=? m) && (m <=? 12)) then Raise bad_request
    else Ok {| OPERA := opera; TIPOVUELO := tipo; MES := m |}.
Proof.
  intros Ho Ht Hm Hop Htipo. unfold validate_flight.
  rewrite all_in_dict by (repeat constructor; by eexists).
  cbn [negb mbind result_bind bind getitem]. rewrite Ho, Ht, Hm.
  cbn [mbind result_bind bind member].
  rewrite !decide_True by done. done.
Qed.

Lemma validate_flight_reads_as f r :
  reads_as f r →
  validate_flight f = if decide (acceptable r) then Ok r else Raise bad_request.
Proof.
  intros (d & mes & -> & Ho & Ht & Hm & Hint). unfold validate_flight.
  rewrite all_in_dict by (repeat constructor; by eexists).
  cbn [negb mbind result_bind bind getitem]. rewrite Ho, Ht, Hm.
  cbn [mbind result_bind bind member]. unfold acceptable.
  destruct (decide (OPERA r ∈ valid_ops)) as [Hop|Hop];
    [|by rewrite decide_False by tauto].
  cbn [mbind result_bind bind].
  destruct (decide (TIPOVUELO r ∈ ["I"; "N"])) as [Htipo|Htipo];
    [|by rewrite decide_False by tauto].
  rewrite Hint. cbn [mbind result_bind bind].
  destruct (decide (1 ≤ MES r ≤ 12)) as [Hm'|Hm'].
  - rewrite decide_True by tauto.
    replace ((1 <=? MES r) && (MES r <=? 12)) with true by (symmetry; apply andb_true_iff; lia).
    by destruct r.
  - rewrite decide_False by tauto.
    replace ((1 <=? MES r) && (MES r <=? 12)) with false; [done|].
    symmetry. apply andb_false_iff. lia.
Qed.

Lemma validate_loop_app flights1 flights2 rows :
  validate_loop (flights1 ++ flights2) rows
  = rows' ← validate_loop flights1 rows; validate_loop flights2 rows'.
Proof.
  revert rows. induction flights1 as [|f flights1 IH]; intros rows; [done|].
  simpl. destruct (validate_flight f); simpl; [apply IH | done].
Qed.

(** A record of a JSON body is either read as a typed record or rejected
    with the 400 error. *)
Lemma json_record_cases f :
  json_record f →
  (∃ r, reads_as f r)
  ∨ (¬ valid_flight f ∧ validate_flight f = Raise bad_request).
Proof.
  intros (d & -> & Hop & Htipo & Hmes).
  assert (∀ k, d !! k = None → ¬ valid_flight (VDict d) ∨ k ∉ ["OPERA"; "TIPOVUELO"; "MES"])
    as Hmissing.
  { intros k Hk. destruct (decide (k ∈ ["OPERA"; "TIPOVUELO"; "MES"])) as [Hin|]; [left|by right].
    intros (r & (d' & mes & [= <-] & Ho & Ht & Hm & _) & _).
    set_unfold in Hin. destruct Hin as [->|[->|[->|[]]]]; congruence. }
  unfold validate_flight.
  destruct (d !! "OPERA") as [opera|] eqn:Ho; cycle 1.
  { right. split; [destruct (Hmissing _ Ho) as [?|Hk]; [done|set_solver]|].
    cbn [all_in contains mbind result_bind bind]. rewrite Ho. done. }
  destruct (d !! "TIPOVUELO") as [tipo|] eqn:Ht; cycle 1.
  { right. split; [destruct (Hmissing _ Ht) as [?|Hk]; [done|set_solver]|].
    cbn [all_in contains mbind result_bind bind]. rewrite Ho, Ht. done. }
  destruct (d !! "MES") as [mes|] eqn:Hm; cycle 1.
  { right. split; [destruct (Hmissing _ Hm) as [?|Hk]; [done|set_solver]|].
    cbn [all_in contains mbind result_bind bind]. rewrite Ho, Ht, Hm. done. }
  rewrite all_in_dict by (repeat constructor; by eexists).
  cbn [negb mbind result_bind bind getitem]. rewrite Ho, Ht, Hm.
  cbn [mbind result_bind bind].
  specialize (Hop _ eq_refl). specialize (Htipo _ eq_refl).
  destruct (Hmes _ eq_refl) as [m Hint].
  assert (∀ r, reads_as (VDict d) r → opera = VStr (OPERA r) ∧ tipo = VStr (TIPOVUELO r))
    as Hread.
  { intros r (d' & mes' & [= <-] & Ho' & Ht' & _). split; congruence. }
  destruct opera as [| | | |s_o| |]; try done;
    try (right; split; [intros (r & [[=] _]%Hread & _) | done]).
  destruct tipo as [| | | |s_t| |]; try done;
    try (right; split; [intros (r & [_ [=]]%Hread & _)
                       | cbn [member]; case_decide; done]).
  left. exists {| OPERA := s_o; TIPOVUELO := s_t; MES := m |}.
  by exists d, mes.
Qed.

Lemma validate_loop_rejects flights rows :
  Forall json_record flights →
  Exists (λ f, ¬ valid_flight f) flights →
  validate_loop flights rows = Raise bad_request.
Proof.
  intros Hjson. revert rows.
  induction Hjson as [|f flights Hf _ IH]; intros rows Hbad.
  - by apply Exists_nil in Hbad.
  - cbn [validate_loop].
    destruct (json_record_cases f Hf) as [[r Hr]|[_ ->]]; [|done].
    rewrite (validate_flight_reads_as _ _ Hr).
    destruct (decide (acceptable r)) as [Hacc|]; [|done].
    cbn [mbind result_bind bind]. apply IH.
    apply Exists_cons in Hbad as [Hnot|?]; [|done].
    destruct Hnot. by exists r.
Qed.

Lemma validate_loop_accepts flights :
  Forall valid_flight flights →
  ∃ records, Forall2 reads_as flights records
             ∧ ∀ rows, validate_loop flights rows = Ok (rows ++ records).
Proof.
  induction 1 as [|f flights (r & Hr & Hacc) _ (records & Hreads & IH)].
  - exists []. split; [constructor|]. intros rows. by rewrite app_nil_r.
  - exists (r :: records). split; [by constructor|]. intros rows.
    cbn [validate_loop]. rewrite (validate_flight_reads_as _ _ Hr).
    rewrite decide_True by done. cbn [mbind result_bind bind].
    by rewrite IH, <- app_assoc.
Qed.
End validator_facts.

Section validator_claims.
Import DelayModel Api Sample.
Context `{Builtins} `{Estimator}.

(** C3, as the code has it.  Take a batch of JSON objects whose OPERA
    and TIPOVUELO are scalars and whose MES is a value that [int]
    converts.  If some record lacks a known operator (one of the five
    carriers), a known flight type ([I] or [N]) or a MES that [int]
    converts into [1,12], the validator raises the 400 error and so does
    the request, for any loaded model: no prediction is returned.
    Otherwise the validator returns every record of the batch, in order
    and with its converted month, and the request goes on to encode and
    predict them. *)
Theorem invalid_record_rejects_whole_batch
    (payload : gmap string pyval) (flights : list pyval) :
  payload !! "flights" = Some (VList flights) →
  Forall json_record flights →
  (Exists (λ f, ¬ valid_flight f) flights →
     _validate payload = Raise bad_request
     ∧ ∀ _model, post_predict _model payload = Raise bad_request)
  ∧ (Forall valid_flight flights →
     ∃ records,
       Forall2 reads_as flights records
       ∧ _validate payload = Ok records
       ∧ ∀ _model, post_predict _model payload
           = features ← preprocess (DataFrame_of_rows records);
             predict _model features).
Proof.
  intros Hflights Hjson. split.
  - intros Hbad.
    assert (_validate payload = Raise bad_request) as E.
    { unfold _validate. rewrite Hflights.
      by apply validate_loop_rejects. }
    split; [done|]. intros _model. unfold post_predict. by rewrite E.
  - intros Hgood.
    destruct (validate_loop_accepts flights Hgood) as (records & Hreads & Hloop).
    exists records.
    assert (_validate payload = Ok records) as E.
    { unfold _validate. by rewrite Hflights, Hloop. }
    split_and!; [done..|]. intros _model. unfold post_predict. by rewrite E.
Qed.

(** C10. Take a record with a known operator and flight type, after
    records that were all accepted.  Whatever its MES is, if [int]
    converts it into [1,12] the record is accepted with the converted
    month; if [int] raises, that exception is what the validator raises,
    whatever follows in the batch. *)
Theorem month_is_whatever_int_makes_of_it
    (earlier : list pyval) (rows : list FlightRecord)
    (d : gmap string pyval) (opera tipo : string) (mes : pyval) :
  validate_loop earlier [] = Ok rows →
  d !! "OPERA" = Some (VStr opera) → d !! "TIPOVUELO" = Some (VStr tipo) →
  d !! "MES" = Some mes →
  opera ∈ valid_ops → tipo ∈ ["I"; "N"] →
  (∀ m, py_int mes = Ok m → 1 ≤ m ≤ 12 →
     _validate (body (earlier ++ [VDict d]))
     = Ok (rows ++ [{| OPERA := opera; TIPOVUELO := tipo; MES := m |}]))
  ∧ (∀ e later, py_int mes = Raise e →
     _validate (body (earlier ++ VDict d :: later)) = Raise e
     ∧ ∀ _model,
         post_predict _model (body (earlier ++ VDict d :: later)) = Raise e).
Proof.
  intros Hearlier Ho Ht Hm Hop Htipo.
  pose proof (validate_flight_known d opera tipo mes Ho Ht Hm Hop Htipo) as E.
  assert (∀ later, _validate (body (earlier ++ VDict d :: later))
                   = r ← validate_flight (VDict d);
                     validate_loop later (rows ++ [r])) as Hbody.
  { intros later. unfold _validate, body. rewrite lookup_singleton_eq.
    by rewrite validate_loop_app, Hearlier. }
  split.
  - intros m Hint Hrange. rewrite Hbody, E, Hint. cbn [mbind result_bind bind].
    replace ((1 <=? m) && (m <=? 12)) with true; [done|].
    symmetry. apply andb_true_iff. lia.
  - intros e later Hint.
    assert (_validate (body (earlier ++ VDict d :: later)) = Raise e) as Hv.
    { by rewrite Hbody, E, Hint. }
    split; [done|]. intros _model. unfold post_predict. by rewrite Hv.
Qed.

(** C4. With no model loaded, [predict] returns one [0] per row of the
    feature frame and does not raise; the two-record batch of Grupo
    LATAM, I, 7 and Sky Airline, N, 12 is encoded and predicted as
    [0, 0], also through the request handler. *)
Theorem predict_without_model_is_all_zeros :
  (∀ features : DataFrame,
     predict None features = Ok (replicate (index_len features) 0))
  ∧ (∃ features,
       preprocess (DataFrame_of_rows [latam_july; sky_december]) = Ok features
       ∧ index_len features = 2%nat
       ∧ predict None features = Ok [0; 0])
  ∧ post_predict None
      (body [flight (VStr "Grupo LATAM") (VStr "I") (VInt 7);
             flight (VStr "Sky Airline") (VStr "N") (VInt 12)])
    = Ok [0; 0].
Proof.
  split; [done|]. split.
  - eexists. split; [apply preprocess_columns|]. done.
  - unfold post_predict.
    assert (_validate
              (body [flight (VStr "Grupo LATAM") (VStr "I") (VInt 7);
                     flight (VStr "Sky Airline") (VStr "N") (VInt 12)])
            = Ok [latam_july; sky_december]) as ->.
    { vm_compute. reflexivity. }
    cbn [mbind result_bind bind DataFrame_of_rows].
    by rewrite preprocess_columns.
Qed.
End validator_claims.

Section validator_witnesses.
Import DelayModel Api Sample.

Lemma sample_json_record (opera tipo mes : pyval) (m : Z) :
  hashable opera → hashable tipo →
  @py_int Reference.builtins mes = Ok m →
  @json_record Reference.builtins (flight opera tipo mes).
Proof.
  intros Hop Htipo Hint. exists (fields opera tipo mes).
  split_and!; [done|..]; intros v [= <-]; eauto.
Qed.

Lemma avianca_not_valid (tipo mes : pyval) :
  ¬ @valid_flight Reference.builtins (flight (VStr "Avianca") tipo mes).
Proof.
  intros (r & (d & mes' & [= <-] & [= Ho] & _) & Hop & _).
  rewrite <- Ho in Hop. revert Hop. compute_done.
Qed.

Lemma invalid_record_rejects_whole_batch_witness :
  (body [flight (VStr "Grupo LATAM") (VStr "I") (VInt 7);
         flight (VStr "Avianca") (VStr "I") (VStr "7")] !! "flights"
   = Some (VList [flight (VStr "Grupo LATAM") (VStr "I") (VInt 7);
                  flight (VStr "Avianca") (VStr "I") (VStr "7")])
   ∧ Forall (@json_record Reference.builtins)
       [flight (VStr "Grupo LATAM") (VStr "I") (VInt 7);
        flight (VStr "Avianca") (VStr "I") (VStr "7")]
   ∧ Exists (λ f, ¬ @valid_flight Reference.builtins f)
       [flight (VStr "Grupo LATAM") (VStr "I") (VInt 7);
        flight (VStr "Avianca") (VStr "I") (VStr "7")])
  ∧ @_validate Reference.builtins
      (body [flight (VStr "Grupo LATAM") (VStr "I") (VInt 7);
             flight (VStr "Avianca") (VStr "I") (VStr "7")])
    = Raise bad_request
  ∧ ∀ _model,
      @post_predict Reference.builtins Reference.estimator _model
        (body [flight (VStr "Grupo LATAM") (VStr "I") (VInt 7);
               flight (VStr "Avianca") (VStr "I") (VStr "7")])
      = Raise bad_request.
Proof.
  assert (Forall (@json_record Reference.builtins)
            [flight (VStr "Grupo LATAM") (VStr "I") (VInt 7);
             flight (VStr "Avianca") (VStr "I") (VStr "7")]) as Hjson.
  { repeat constructor.
    - by apply (sample_json_record _ _ _ 7).
    - by apply (sample_json_record _ _ _ 7). }
  assert (Exists (λ f, ¬ @valid_flight Reference.builtins f)
            [flight (VStr "Grupo LATAM") (VStr "I") (VInt 7);
             flight (VStr "Avianca") (VStr "I") (VStr "7")]) as Hbad.
  { right. left. apply avianca_not_valid. }
  split; [split_and!; [reflexivity | exact Hjson | exact Hbad]|].
  exact (proj1 (@invalid_record_rejects_whole_batch
                  Reference.builtins Reference.estimator
                  (body [flight (VStr "Grupo LATAM") (VStr "I") (VInt 7);
                         flight (VStr "Avianca") (VStr "I") (VStr "7")])
                  [flight (VStr "Grupo LATAM") (VStr "I") (VInt 7);
                   flight (VStr "Avianca") (VStr "I") (VStr "7")]
                  eq_refl Hjson) Hbad).
Defined.

(** Against C3 as stated: the float [7.9] is not an integer in [1,12],
    yet the record is accepted, with month 7, and the request returns a
    prediction. *)
Lemma non_integer_month_is_accepted :
  ¬ integer_in_1_12 (VFloat float_7_9)
  ∧ @_validate Reference.builtins
      (body [flight (VStr "Grupo LATAM") (VStr "I") (VFloat float_7_9)])
    = Ok [latam_july]
  ∧ @post_predict Reference.builtins Reference.estimator None
      (body [flight (VStr "Grupo LATAM") (VStr "I") (VFloat float_7_9)])
    = Ok [0].
Proof.
  split_and!; [|reflexivity..].
  intros (z & [=] & _).
Qed.

Lemma month_is_whatever_int_makes_of_it_witness :
  (@validate_loop Reference.builtins
     [flight (VStr "Grupo LATAM") (VStr "I") (VInt 7)] [] = Ok [latam_july]
   ∧ fields (VStr "Sky Airline") (VStr "N") (VStr "12") !! "OPERA"
     = Some (VStr "Sky Airline")
   ∧ fields (VStr "Sky Airline") (VStr "N") (VStr "12") !! "TIPOVUELO"
     = Some (VStr "N")
   ∧ fields (VStr "Sky Airline") (VStr "N") (VStr "12") !! "MES"
     = Some (VStr "12")
   ∧ "Sky Airline" ∈ valid_ops ∧ "N" ∈ ["I"; "N"]
   ∧ @py_int Reference.builtins (VStr "12") = Ok 12 ∧ 1 ≤ 12 ≤ 12)
  ∧ @_validate Reference.builtins
      (body ([flight (VStr "Grupo LATAM") (VStr "I") (VInt 7)]
             ++ [flight (VStr "Sky Airline") (VStr "N") (VStr "12")]))
    = Ok ([latam_july] ++ [sky_december]).
Proof.
  assert ("Sky Airline" ∈ valid_ops) as Hop by compute_done.
  assert ("N" ∈ ["I"; "N"]) as Htipo by compute_done.
  split; [split_and!; [reflexivity..|exact Hop|exact Htipo|reflexivity|lia|lia]|].
  apply (@month_is_whatever_int_makes_of_it
           Reference.builtins Reference.estimator
           [flight (VStr "Grupo LATAM") (VStr "I") (VInt 7)] [latam_july]
           (fields (VStr "Sky Airline") (VStr "N") (VStr "12"))
           "Sky Airline" "N" (VStr "12")
           eq_refl eq_refl eq_refl eq_refl Hop Htipo);
    [reflexivity | lia].
Defined.

(** The validator on the month values of the claim: the str ["7"] and
    the float [7.9] are accepted as month 7; the str ["abc"] makes [int]
    raise [ValueError], which is not the 400 error; with an unknown
    operator the month is never converted and the 400 error is raised;
    months 0 and 13 and the flight type [X] are rejected. *)
Example month_text_is_accepted :
  @_validate Reference.builtins
    (body [flight (VStr "Grupo LATAM") (VStr "I") (VStr "7")])
  = Ok [latam_july].
Proof. reflexivity. Qed.

Example month_float_is_truncated :
  @py_int Reference.builtins (VFloat float_7_9) = Ok 7.
Proof. reflexivity. Qed.

Example month_abc_escapes :
  @_validate Reference.builtins
    (body [flight (VStr "Grupo LATAM") (VStr "I") (VStr "abc")])
  = Raise ValueError
  ∧ ValueError ≠ bad_request.
Proof. split; [reflexivity | discriminate]. Qed.

Example month_abc_after_unknown_operator :
  @_validate Reference.builtins
    (body [flight (VStr "Avianca") (VStr "I") (VStr "abc")])
  = Raise bad_request.
Proof. reflexivity. Qed.

Example out_of_catalog_values_are_rejected :
  (λ f, @_validate Reference.builtins (body [f])) <$>
    [flight (VStr "Grupo LATAM") (VStr "I") (VInt 0);
     flight (VStr "Grupo LATAM") (VStr "I") (VInt 13);
     flight (VStr "Grupo LATAM") (VStr "X") (VInt 7);
     flight (VStr "Avianca") (VStr "I") (VInt 7)]
  = replicate 4 (Raise bad_request).
Proof. reflexivity. Qed.

(** [pd.DataFrame([])] has no column [OPERA]: an empty list of flights
    passes the validator and fails in [preprocess]. *)
Example empty_batch_raises_KeyError :
  @_validate Reference.builtins (body []) = Ok []
  ∧ @post_predict Reference.builtins Reference.estimator None (body [])
    = Raise KeyError.
Proof. split; reflexivity. Qed.
End validator_witnesses.

(** ** Training and the model store *)

Section estimator_facts.
Import DelayModel.
Context `{Estimator}.

(** [fit] has no check of its own: it raises exactly when the
    estimator's [fit] raises, and with the same exception. *)
Lemma fit_raises_as_estimator features target e :
  fit features target = Raise e
  ↔ sk_fit (class_weight target) features target = Raise e.
Proof.
  unfold fit. destruct (sk_fit _ _ _); simpl; split; congruence.
Qed.

(** On a non-empty target of zeros only, the weight of class 0 is the
    quotient of zero and the weight of class 1 the quotient of the length
    by itself. *)
Lemma class_weight_all_zeros (n : nat) :
  class_weight (replicate (S n) 0)
  = ({| dividend := 0; divisor := S n |},
     {| dividend := S n; divisor := S n |}).
Proof.
  unfold class_weight.
  assert (filter (λ y, y = 0) (replicate (S n) 0) = replicate (S n) 0) as ->.
  { generalize (S n). intros k. induction k as [|k IH]; [done|].
    simpl. rewrite filter_cons, decide_True by done. by rewrite IH. }
  assert (filter (λ y, y = 1) (replicate (S n) 0) = []) as ->.
  { generalize (S n). intros k. induction k as [|k IH]; [done|].
    simpl. by rewrite filter_cons, decide_False. }
  by rewrite length_replicate.
Qed.

Lemma save_model_untrained filepath files :
  save_model None filepath files = Raise ValueError.
Proof. done. Qed.

Lemma load_model_missing filepath (files : gmap string (list Byte.byte)) :
  files !! filepath = None →
  load_model filepath files = Raise FileNotFoundError.
Proof. unfold load_model. by intros ->. Qed.

End estimator_facts.

Section estimator_witnesses.
Import DelayModel.

(** Training on the two sample flights with labels 1 and 1, saving and
    loading, and predicting. *)
Example train_save_load_predict :
  (features ← preprocess (Flights [Sample.latam_july; Sample.sky_december]);
   model ← @fit Reference.estimator features [1; 1];
   files ← @save_model Reference.estimator model "model.pkl" ∅;
   loaded ← @load_model Reference.estimator "model.pkl" files;
   @predict Reference.estimator loaded features)
  = Ok [1; 1].
Proof. reflexivity. Qed.
End estimator_witnesses.

(** * Further properties *)

(** ** The validator, beyond well-formed records *)

Section validator_extras.
Import DelayModel Api Sample.
Context `{Builtins}.

Lemma all_in_dict_inv (d : gmap string pyval) (keys : list string) :
  all_in keys (VDict d) = Ok true → Forall (λ k, is_Some (d !! k)) keys.
Proof.
  induction keys as [|k keys IH]; [constructor|].
  cbn [all_in contains mbind result_bind bind].
  destruct (bool_decide (is_Some (d !! k))) eqn:E; [|discriminate].
  intros Hrest. constructor; [by apply bool_decide_eq_true in E | by apply IH].
Qed.

Lemma all_in_dict_missing (d : gmap string pyval) (keys : list string) k :
  k ∈ keys → d !! k = None → all_in keys (VDict d) = Ok false.
Proof.
  induction keys as [|k' keys IH]; intros Hk Hnone; [by apply elem_of_nil in Hk|].
  cbn [all_in contains mbind result_bind bind].
  destruct (bool_decide (is_Some (d !! k'))) eqn:E; [|done].
  apply elem_of_cons in Hk as [->|Hk]; [|by apply IH].
  apply bool_decide_eq_true in E. rewrite Hnone in E. by destruct E.
Qed.

(** What the loop body does on an object that has the three keys. *)
Lemma validate_flight_dict (d : gmap string pyval) opera tipo mes :
  d !! "OPERA" = Some opera → d !! "TIPOVUELO" = Some tipo →
  d !! "MES" = Some mes →
  validate_flight (VDict d)
  = opera_ok ← member opera valid_ops;
    match opera_ok with
    | None => Raise bad_request
    | Some opera =>
        tipo_ok ← member tipo ["I"; "N"];
        match tipo_ok with
        | None => Raise bad_request
        | Some tipo =>
            m ← py_int mes;
            if negb ((1 <=? m) && (m <=? 12)) then Raise bad_request
            else Ok {| OPERA := opera; TIPOVUELO := tipo; MES := m |}
        end
    end.
Proof.
  intros Ho Ht Hm. unfold validate_flight.
  rewrite all_in_dict by (repeat constructor; by eexists).
  cbn [negb mbind result_bind bind getitem]. by rewrite Ho, Ht, Hm.
Qed.

(** An element that is no object is never accepted, and an object is
    accepted only with its three keys. *)
Lemma validate_flight_cases f :
  (∃ d opera tipo mes, f = VDict d ∧ d !! "OPERA" = Some opera
     ∧ d !! "TIPOVUELO" = Some tipo ∧ d !! "MES" = Some mes)
  ∨ validate_flight f = Raise bad_request
  ∨ validate_flight f = Raise TypeError.
Proof.
  destruct f as [| | | |s|l|d]; try (right; right; reflexivity).
  - unfold validate_flight.
    destruct (all_in _ (VStr s)) as [[|]|e] eqn:E; cbn in E |- *; auto.
    right. right. revert E. repeat case_match; congruence.
  - unfold validate_flight.
    destruct (all_in _ (VList l)) as [[|]|e] eqn:E; cbn in E |- *; auto.
    right. right. revert E. repeat case_match; congruence.
  - destruct (d !! "OPERA") as [opera|] eqn:Ho; cycle 1.
    { right. left. unfold validate_flight.
      by rewrite (all_in_dict_missing d _ "OPERA") by (done || set_solver). }
    destruct (d !! "TIPOVUELO") as [tipo|] eqn:Ht; cycle 1.
    { right. left. unfold validate_flight.
      by rewrite (all_in_dict_missing d _ "TIPOVUELO") by (done || set_solver). }
    destruct (d !! "MES") as [mes|] eqn:Hm; cycle 1.
    { right. left. unfold validate_flight.
      by rewrite (all_in_dict_missing d _ "MES") by (done || set_solver). }
    left. eauto 10.
Qed.
Lemma validate_flight_ok_iff f r :
  validate_flight f = Ok r ↔ reads_as f r ∧ acceptable r.
Proof.
  split.
  - intros Hok.
    destruct (validate_flight_cases f)
      as [(d & opera & tipo & mes & -> & Ho & Ht & Hm)|[E|E]];
      [|congruence..].
    rewrite (validate_flight_dict d _ _ _ Ho Ht Hm) in Hok.
    destruct opera as [| | | |s_o| |]; try discriminate.
    cbn [member mbind result_bind bind] in Hok.
    destruct (decide (s_o ∈ valid_ops)) as [Hop|]; [|discriminate].
    destruct tipo as [| | | |s_t| |]; try discriminate.
    cbn [member mbind result_bind bind] in Hok.
    destruct (decide (s_t ∈ ["I"; "N"])) as [Htipo|]; [|discriminate].
    destruct (py_int mes) as [m|] eqn:Hint; [|discriminate].
    cbn [mbind result_bind bind] in Hok.
    destruct ((1 <=? m) && (m <=? 12)) eqn:Hrange; [|discriminate].
    injection Hok as <-. apply andb_true_iff in Hrange as [? ?].
    split; [by exists d, mes|]. unfold acceptable. simpl.
    split_and!; [done|done|lia|lia].
  - intros [Hr Hacc]. rewrite (validate_flight_reads_as _ _ Hr).
    by rewrite decide_True.
Qed.

Lemma validate_loop_ok_iff flights acc out :
  validate_loop flights acc = Ok out
  ↔ ∃ rows, out = acc ++ rows
            ∧ Forall2 (λ f r, reads_as f r ∧ acceptable r) flights rows.
Proof.
  revert acc. induction flights as [|f flights IH]; intros acc.
  - cbn [validate_loop]. split.
    + intros [= <-]. exists []. by rewrite app_nil_r.
    + intros (rows & -> & ->%Forall2_nil_inv_l). by rewrite app_nil_r.
  - cbn [validate_loop]. split.
    + destruct (validate_flight f) as [r|] eqn:Hf; [|discriminate].
      cbn [mbind result_bind bind]. intros (rows & -> & Hrest)%IH.
      exists (r :: rows). rewrite <- app_assoc. split; [done|].
      constructor; [by apply validate_flight_ok_iff | done].
    + intros (rows & -> & (r & rows' & Hr & Hrest & ->)%Forall2_cons_inv_l).
      apply validate_flight_ok_iff in Hr. rewrite Hr.
      cbn [mbind result_bind bind]. apply IH. exists rows'.
      by rewrite <- app_assoc.
Qed.

Lemma validate_loop_raise flights acc e :
  validate_loop flights acc = Raise e →
  ∃ f, f ∈ flights ∧ validate_flight f = Raise e.
Proof.
  revert acc. induction flights as [|f flights IH]; intros acc; [done|].
  cbn [validate_loop]. destruct (validate_flight f) as [r|e'] eqn:Hf.
  - cbn [mbind result_bind bind]. intros (f' & ? & ?)%IH.
    exists f'. split; [by right | done].
  - intros [= ->]. exists f. split; [by left | done].
Qed.

Lemma validate_flight_raise f e :
  validate_flight f = Raise e →
  e = bad_request ∨ e = TypeError
  ∨ ∃ d mes, f = VDict d ∧ d !! "MES" = Some mes ∧ py_int mes = Raise e.
Proof.
  intros Hraise.
  destruct (validate_flight_cases f)
    as [(d & opera & tipo & mes & -> & Ho & Ht & Hm)|[E|E]];
    [|left; congruence|right; left; congruence].
  rewrite (validate_flight_dict d _ _ _ Ho Ht Hm) in Hraise.
  destruct opera as [| | | |s_o| |];
    cbn [member mbind result_bind bind] in Hraise;
    try (left; congruence); try (right; left; congruence).
  destruct (decide (s_o ∈ valid_ops)); [|left; congruence].
  destruct tipo as [| | | |s_t| |];
    cbn [member mbind result_bind bind] in Hraise;
    try (left; congruence); try (right; left; congruence).
  destruct (decide (s_t ∈ ["I"; "N"])); [|left; congruence].
  destruct (py_int mes) as [m|e'] eqn:Hint;
    cbn [mbind result_bind bind] in Hraise.
  - destruct (negb _); [left; congruence | discriminate].
  - injection Hraise as ->. right. right. by exists d, mes.
Qed.

(** The validator on a batch whose first records were accepted. *)
Lemma validate_body_app earlier rows f later :
  validate_loop earlier [] = Ok rows →
  _validate (body (earlier ++ f :: later))
  = r ← validate_flight f; validate_loop later (rows ++ [r]).
Proof.
  intros Hearlier. unfold _validate, body. rewrite lookup_singleton_eq.
  by rewrite validate_loop_app, Hearlier.
Qed.

(** X1. The validator returns rows exactly when ["flights"] is a list
    each of whose elements is an object with a known operator str, a known
    flight type str and a MES that [int] converts into [1,12]; the rows
    are then those records, one per element and in the order of the
    list. *)
Theorem validate_accepts_iff
    (payload : gmap string pyval) (rows : list FlightRecord) :
  _validate payload = Ok rows
  ↔ ∃ flights, payload !! "flights" = Some (VList flights)
               ∧ Forall2 (λ f r, reads_as f r ∧ acceptable r) flights rows.
Proof.
  unfold _validate. split.
  - destruct (payload !! "flights") as [[| | | | |flights|]|]; try discriminate.
    intros (rows' & -> & Hall)%validate_loop_ok_iff. by exists flights.
  - intros (flights & -> & Hall). apply validate_loop_ok_iff. by exists rows.
Qed.

(** X2. Whatever the payload, an exception of the validator is the 400
    error, a [TypeError], or the exception that [int] raised on the MES of
    one of the records; a missing key in particular never surfaces as a
    [KeyError] of the lookup. *)
Theorem validate_raises_only
    (payload : gmap string pyval) (e : exn) :
  _validate payload = Raise e →
  e = bad_request ∨ e = TypeError
  ∨ ∃ flights d mes,
      payload !! "flights" = Some (VList flights)
      ∧ VDict d ∈ flights ∧ d !! "MES" = Some mes ∧ py_int mes = Raise e.
Proof.
  unfold _validate.
  destruct (payload !! "flights") as [[| | | | |flights|]|];
    try (intros [= <-]; by left).
  intros (f & Hf & [?|[?|(d & mes & -> & ? & ?)]]%validate_flight_raise)%validate_loop_raise;
    [by left | by right; left |].
  right. right. by exists flights, d, mes.
Qed.

(** X3. A record that lacks one of the three keys is rejected with the
    400 error whatever its other values are, also values that would make
    the later tests raise, and whatever follows it in the batch. *)
Theorem missing_key_is_bad_request
    (earlier later : list pyval) (rows : list FlightRecord)
    (d : gmap string pyval) (k : string) :
  validate_loop earlier [] = Ok rows →
  k ∈ ["OPERA"; "TIPOVUELO"; "MES"] →
  d !! k = None →
  _validate (body (earlier ++ VDict d :: later)) = Raise bad_request.
Proof.
  intros Hearlier Hk Hnone. rewrite (validate_body_app _ _ _ _ Hearlier).
  unfold validate_flight. by rewrite (all_in_dict_missing d _ k).
Qed.

(** X4. An element of ["flights"] that is [null], a boolean or a number
    makes the validator raise [TypeError], not the 400 error, once the
    records before it were accepted. *)
Theorem scalar_element_raises_TypeError
    (earlier later : list pyval) (rows : list FlightRecord) (f : pyval) :
  validate_loop earlier [] = Ok rows →
  match f with
  | VNone | VBool _ | VInt _ | VFloat _ => True
  | VStr _ | VList _ | VDict _ => False
  end →
  _validate (body (earlier ++ f :: later)) = Raise TypeError
  ∧ TypeError ≠ bad_request.
Proof.
  intros Hearlier Hf. rewrite (validate_body_app _ _ _ _ Hearlier).
  by destruct f.
Qed.
End validator_extras.

(** ** The request handler *)

Section handler_extras.
Import DelayModel Api FeatureEncoderSpec Sample.
Context `{Builtins} `{Estimator}.

(** The frame that the handler hands to [predict] for accepted rows. *)
Lemma features_of_rows (rows : list FlightRecord) :
  rows ≠ [] →
  preprocess (DataFrame_of_rows rows)
  = Ok {| index_len := length rows; columns := column_of rows <$> catalog |}.
Proof.
  intros Hne. destruct rows as [|r rows]; [done|]. apply preprocess_columns.
Qed.

(** X5. With no model loaded the handler answers exactly the accepted
    batches that are not empty, and answers them with one [0] per
    flight. *)
Theorem handler_without_model_iff
    (payload : gmap string pyval) (predictions : list Z) :
  post_predict None payload = Ok predictions
  ↔ ∃ rows, _validate payload = Ok rows ∧ rows ≠ []
            ∧ predictions = replicate (length rows) 0.
Proof.
  unfold post_predict. split.
  - destruct (_validate payload) as [rows|]; [|discriminate].
    cbn [mbind result_bind bind]. destruct rows as [|r rows]; [discriminate|].
    rewrite features_of_rows by done. cbn. intros [= <-]. by eexists.
  - intros (rows & -> & Hne & ->). cbn [mbind result_bind bind].
    by rewrite features_of_rows.
Qed.

(** X6. A payload whose ["flights"] is the empty list passes the
    validator and then fails in [preprocess] with a [KeyError], whatever
    model is loaded: the frame built from no rows has no column
    [OPERA]. *)
Theorem empty_flights_raise_KeyError
    (payload : gmap string pyval) (_model : option LogisticRegression) :
  payload !! "flights" = Some (VList []) →
  _validate payload = Ok []
  ∧ post_predict _model payload = Raise KeyError.
Proof.
  intros Hflights. unfold post_predict, _validate. by rewrite Hflights.
Qed.

(** X7. With a model loaded, the handler's answer to an accepted batch
    that is not empty is the estimator's prediction on the frame of the
    ten indicator columns of the accepted rows, in catalog order; nothing
    else of the payload reaches the estimator. *)
Theorem handler_with_model
    (payload : gmap string pyval) (rows : list FlightRecord)
    (model : LogisticRegression) :
  _validate payload = Ok rows → rows ≠ [] →
  post_predict (Some model) payload
  = sk_predict model
      {| index_len := length rows; columns := column_of rows <$> catalog |}.
Proof.
  intros Hrows Hne. unfold post_predict. rewrite Hrows.
  cbn [mbind result_bind bind]. by rewrite features_of_rows.
Qed.
End handler_extras.

(** ** The encoded frame *)

Section encoder_extras.
Import DelayModel Api FeatureEncoderSpec.

(** X8. The frame that [preprocess] builds from [n] rows has the ten
    catalog columns, each of length [n], and an index of length [n], also
    for a frame with the three columns and no row. *)
Theorem preprocess_shape (rows : list FlightRecord) :
  ∃ df, preprocess (Flights rows) = Ok df
        ∧ index_len df = length rows
        ∧ (columns df).*1 = TOP_10_FEATURES
        ∧ Forall (λ c, length c.2 = length rows) (columns df).
Proof.
  eexists. split; [apply preprocess_columns|]. cbn [index_len columns].
  split_and!; [done | by rewrite <- list_fmap_compose |].
  apply Forall_fmap, Forall_forall. intros e _. cbn. apply length_fmap.
Qed.

Lemma indicator_0_1 e r : indicator e r = 0 ∨ indicator e r = 1.
Proof. unfold indicator. case_decide; auto. Qed.

(** X9. Every cell of an encoded row is 0 or 1, at most one of its four
    operator cells is 1 and at most one of its five month cells is 1. *)
Theorem encoded_row_is_one_hot
    (rows : list FlightRecord) (i : nat) (r : FlightRecord) :
  rows !! i = Some r →
  ∃ df law m7 m10 latam m12 tipo_i m4 m11 sky copa,
    preprocess (Flights rows) = Ok df
    ∧ row df i = Some [law; m7; m10; latam; m12; tipo_i; m4; m11; sky; copa]
    ∧ Forall (λ x, x = 0 ∨ x = 1)
        [law; m7; m10; latam; m12; tipo_i; m4; m11; sky; copa]
    ∧ law + latam + sky + copa ≤ 1
    ∧ m7 + m10 + m12 + m4 + m11 ≤ 1.
Proof.
  intros Hi. eexists.
  exists (indicator (OperaIs "Latin American Wings") r),
    (indicator (MesIs 7) r), (indicator (MesIs 10) r),
    (indicator (OperaIs "Grupo LATAM") r), (indicator (MesIs 12) r),
    (indicator (TipoIs "I") r), (indicator (MesIs 4) r),
    (indicator (MesIs 11) r), (indicator (OperaIs "Sky Airline") r),
    (indicator (OperaIs "Copa Air") r).
  split; [apply preprocess_columns|].
  split; [unfold row; cbn [columns]; by rewrite (row_of_columns _ _ _ _ Hi)|].
  split.
  - repeat (apply Forall_cons_2; [apply indicator_0_1|]). apply Forall_nil_2.
  - unfold indicator, holds. destruct r as [opera tipo mes]. cbn.
    split.
    + repeat case_decide; subst; try discriminate; lia.
    + repeat case_decide; subst; try discriminate; lia.
Qed.

(** X10. Of the five operators that the validator accepts, Aerolineas
    Argentinas is the one without a column: the encoded row of an accepted
    record has its four operator cells at zero exactly when the operator
    is Aerolineas Argentinas, and its five month cells at zero exactly
    when the month is none of 4, 7, 10, 11 and 12. *)
Theorem accepted_record_without_column
    (rows : list FlightRecord) (i : nat) (r : FlightRecord) :
  rows !! i = Some r → acceptable r →
  ∃ df law m7 m10 latam m12 tipo_i m4 m11 sky copa,
    preprocess (Flights rows) = Ok df
    ∧ row df i = Some [law; m7; m10; latam; m12; tipo_i; m4; m11; sky; copa]
    ∧ (law + latam + sky + copa = 0 ↔ OPERA r = "Aerolineas Argentinas")
    ∧ (m7 + m10 + m12 + m4 + m11 = 0 ↔ MES r ∈ [1; 2; 3; 5; 6; 8; 9]).
Proof.
  intros Hi (Hop & _ & Hmes). eexists.
  exists (indicator (OperaIs "Latin American Wings") r),
    (indicator (MesIs 7) r), (indicator (MesIs 10) r),
    (indicator (OperaIs "Grupo LATAM") r), (indicator (MesIs 12) r),
    (indicator (TipoIs "I") r), (indicator (MesIs 4) r),
    (indicator (MesIs 11) r), (indicator (OperaIs "Sky Airline") r),
    (indicator (OperaIs "Copa Air") r).
  split; [apply preprocess_columns|].
  split; [unfold row; cbn [columns]; by rewrite (row_of_columns _ _ _ _ Hi)|].
  unfold indicator, holds. destruct r as [opera tipo mes]. cbn in *. split.
  - unfold valid_ops in Hop. set_unfold in Hop.
    destruct Hop as [->|[->|[->|[->|[->|[]]]]]];
      repeat case_decide; try discriminate; split; intros; try done; lia.
  - set_unfold. repeat case_decide; subst; split; intros; try lia.
Qed.
End encoder_extras.

(** ** Labels *)

Section label_extras.
Import DelayModel.
Context `{Builtins}.

Lemma parse_field_same (row row' : gmap string pyval) k :
  row !! k = row' !! k → parse_field row k = parse_field row' k.
Proof. unfold parse_field. by intros ->. Qed.

(** X11. The label generator reads nothing but the two timestamp fields:
    two frames whose rows agree on [Fecha-O] and [Fecha-I] get the same
    labels, whatever their other columns hold. *)
Theorem labels_depend_on_timestamps_only
    (data data' : list (gmap string pyval)) :
  Forall2 (λ row row', row !! "Fecha-O" = row' !! "Fecha-O"
                       ∧ row !! "Fecha-I" = row' !! "Fecha-I") data data' →
  _generate_delay_target data = _generate_delay_target data'.
Proof.
  unfold _generate_delay_target.
  induction 1 as [|row row' data data' [Ho Hi] _ IH]; [done|].
  rewrite !fmap_cons, IH. f_equal.
  unfold delay_of_row, calculate_min_diff, min_diff_try.
  by rewrite (parse_field_same _ _ _ Ho), (parse_field_same _ _ _ Hi).
Qed.
End label_extras.

(** ** The startup hook and the upload script *)

Section text_facts.

Lemma append_cons (x : ascii) (a b : string) :
  String x a +:+ b = String x (a +:+ b).
Proof. reflexivity. Qed.

Lemma append_assoc (a b c : string) : (a +:+ b) +:+ c = a +:+ (b +:+ c).
Proof.
  induction a as [|x a IH]; [done|]. by rewrite !append_cons, IH.
Qed.

Lemma split_not_nil sep s : PyStr.split sep s ≠ [].
Proof.
  destruct s as [|c s]; [done|]. cbn. case_decide; [done|].
  by destruct (PyStr.split sep s).
Qed.

Lemma join_cons sep part parts :
  parts ≠ [] →
  PyStr.join sep (part :: parts) = part +:+ sep +:+ PyStr.join sep parts.
Proof. by destruct parts. Qed.

Lemma join_split sep s :
  PyStr.join (String sep EmptyString) (PyStr.split sep s) = s.
Proof.
  induction s as [|c s IH]; [done|]. cbn [PyStr.split].
  pose proof (split_not_nil sep s) as Hne.
  destruct (decide (c = sep)) as [->|Hc].
  - rewrite join_cons, IH by done. reflexivity.
  - destruct (PyStr.split sep s) as [|part parts] eqn:E; [done|].
    destruct parts as [|part' parts].
    + cbn in IH |- *. by rewrite IH.
    + rewrite join_cons in IH |- * by done. by rewrite append_cons, IH.
Qed.

Lemma split_length sep s :
  length (PyStr.split sep s) = S (PyStr.count sep s).
Proof.
  induction s as [|c s IH]; [done|]. cbn [PyStr.split PyStr.count].
  pose proof (split_not_nil sep s) as Hne.
  destruct (decide (c = sep)); cbn [length]; [by rewrite IH|].
  destruct (PyStr.split sep s); [done|]. cbn [length] in *. lia.
Qed.

(** Splitting at the first separator. *)
Lemma split_first sep (a b : string) :
  PyStr.count sep a = 0%nat →
  PyStr.split sep (a +:+ String sep b) = a :: PyStr.split sep b.
Proof.
  induction a as [|c a IH]; intros Hcount.
  - change ("" +:+ String sep b) with (String sep b).
    cbn [PyStr.split]. by rewrite decide_True.
  - rewrite append_cons. cbn [PyStr.split PyStr.count] in Hcount |- *.
    destruct (decide (c = sep)); [done|]. by rewrite IH by done.
Qed.

(** The parts of a URI of the form [gs://bucket/rest]. *)
Lemma split_gs (bucket rest : string) :
  PyStr.count "/" bucket = 0%nat →
  PyStr.split "/" ("gs://" +:+ bucket +:+ "/" +:+ rest)
  = "gs:" :: "" :: bucket :: PyStr.split "/" rest.
Proof.
  intros Hbucket.
  change ("gs://" +:+ bucket +:+ "/" +:+ rest)
    with ("gs:" +:+ String "/" ("" +:+ String "/" (bucket +:+ String "/" rest))).
  rewrite (split_first "/" "gs:") by done.
  rewrite (split_first "/" "") by done.
  by rewrite (split_first "/" bucket).
Qed.
End text_facts.

Section startup_extras.
Import DelayModel Api FeatureEncoderSpec Startup UploadScript.
Context `{Builtins} `{Estimator} `{Cloud}.

(** X14. The hook finds no bucket name, and gives up, exactly on an
    artifact URI with fewer than two slashes. *)
Theorem bucket_name_needs_two_slashes (artifact_uri : string) :
  bucket_and_blob artifact_uri = None
  ↔ (PyStr.count "/" artifact_uri < 2)%nat.
Proof.
  unfold bucket_and_blob.
  pose proof (split_length "/" artifact_uri) as Hlen.
  destruct (PyStr.split "/" artifact_uri !! 2%nat) as [bucket|] eqn:E.
  - apply lookup_lt_Some in E. split; [done | lia].
  - apply lookup_ge_None in E. split; [lia | done].
Qed.

(** X15. From a URI [gs://bucket/rest] the hook takes [bucket] as the
    bucket and [rest] followed by [model.pkl] as the blob: the blob is
    inside the directory [rest] only when [rest] ends with a slash. *)
Theorem blob_path_appends_to_rest (bucket rest : string) :
  PyStr.count "/" bucket = 0%nat →
  bucket_and_blob ("gs://" +:+ bucket +:+ "/" +:+ rest)
  = Some (bucket, rest +:+ "model.pkl").
Proof.
  intros Hbucket. unfold bucket_and_blob.
  rewrite (split_gs _ _ Hbucket). simpl.
  by rewrite drop_0, (join_split "/").
Qed.

Lemma artifact_uri_round_trip (bucket_name timestamp : string) :
  PyStr.count "/" bucket_name = 0%nat →
  bucket_and_blob (artifact_uri bucket_name timestamp)
  = Some (bucket_name, blob_name timestamp).
Proof.
  intros Hbucket. unfold artifact_uri, blob_name.
  generalize (version_dir timestamp). intros dir. unfold bucket_and_blob.
  rewrite (split_gs _ _ Hbucket). simpl.
  by rewrite drop_0, (join_split "/"), append_assoc.
Qed.

(** X16. The names of the upload script and of the hook agree: from the
    artifact URI that the script registers for a bucket and a timestamp,
    the hook computes that bucket and the blob name under which the script
    uploaded the model, and the URI returned by the upload is the artifact
    URI followed by [model.pkl]. *)
Theorem upload_and_hook_agree (bucket_name timestamp : string) :
  PyStr.count "/" bucket_name = 0%nat →
  bucket_and_blob (artifact_uri bucket_name timestamp)
  = Some (bucket_name, blob_name timestamp)
  ∧ gcs_uri bucket_name (blob_name timestamp)
    = artifact_uri bucket_name timestamp +:+ "model.pkl".
Proof.
  intros Hbucket. split; [by apply artifact_uri_round_trip|].
  unfold gcs_uri, artifact_uri, blob_name.
  by rewrite !append_assoc.
Qed.

Lemma is_set_Some (v : option string) :
  is_set v = true → ∃ s, v = Some s ∧ s ≠ EmptyString.
Proof. destruct v as [[|c s]|]; try done. by eexists. Qed.

(** Runs the hook along its successful path: the three variables, then
    the listing, the URI, the download and the load. *)
Ltac run_hook Hp Hl Hn Hlist Hparse Hdown Hpickle :=
  unfold load_model_on_startup; rewrite Hp, Hl, Hn;
  repeat match goal with
         | Hne : ?s ≠ EmptyString |- _ => destruct s; [done|clear Hne]
         end;
  cbn [is_set andb negb]; rewrite Hlist, Hparse, Hdown;
  unfold load_model; rewrite lookup_insert_eq, Hpickle.

(** X17. When the three variables are set and not empty, the registry
    lists a model, its URI has a bucket name, the blob downloads and
    [pickle] reads it, the hook replaces the model by the estimator read
    from the first model listed; the models listed after it, the name of
    the temporary file and the other files play no part. *)
Theorem hook_loads_first_listed_model
    (env : gmap string string) (tmp_name : string)
    (files : gmap string (list Byte.byte))
    (_model : option LogisticRegression)
    (project_id location model_name latest bucket blob_path : string)
    (older : list string) (blob : list Byte.byte)
    (model : LogisticRegression) :
  env !! "GCP_PROJECT_ID" = Some project_id → project_id ≠ EmptyString →
  env !! "GCP_LOCATION" = Some location → location ≠ EmptyString →
  env !! "VERTEX_MODEL_NAME" = Some model_name → model_name ≠ EmptyString →
  vertex_models project_id location model_name = Ok (latest :: older) →
  bucket_and_blob latest = Some (bucket, blob_path) →
  gcs_download project_id bucket blob_path = Ok blob →
  pickle_loads blob = Ok model →
  load_model_on_startup env tmp_name files _model = Some model.
Proof.
  intros Hp Hp' Hl Hl' Hn Hn' Hlist Hparse Hdown Hpickle.
  run_hook Hp Hl Hn Hlist Hparse Hdown Hpickle. done.
Qed.

(** X18. The hook never leaves the server without its model: it returns
    the model it was given unless every step succeeded, in which case it
    returns the estimator that [pickle] read from the blob of the first
    model listed. *)
Theorem hook_keeps_or_loads
    (env : gmap string string) (tmp_name : string)
    (files : gmap string (list Byte.byte))
    (_model : option LogisticRegression) :
  load_model_on_startup env tmp_name files _model = _model
  ∨ ∃ project_id location model_name latest older bucket blob_path blob model,
      env !! "GCP_PROJECT_ID" = Some project_id ∧ project_id ≠ EmptyString
      ∧ env !! "GCP_LOCATION" = Some location ∧ location ≠ EmptyString
      ∧ env !! "VERTEX_MODEL_NAME" = Some model_name
      ∧ model_name ≠ EmptyString
      ∧ vertex_models project_id location model_name = Ok (latest :: older)
      ∧ bucket_and_blob latest = Some (bucket, blob_path)
      ∧ gcs_download project_id bucket blob_path = Ok blob
      ∧ pickle_loads blob = Ok model
      ∧ load_model_on_startup env tmp_name files _model = Some model.
Proof.
  unfold load_model_on_startup.
  destruct (is_set (env !! "GCP_PROJECT_ID")) eqn:Ep; [|by left].
  destruct (is_set (env !! "GCP_LOCATION")) eqn:El; [|by left].
  destruct (is_set (env !! "VERTEX_MODEL_NAME")) eqn:En; [|by left].
  apply is_set_Some in Ep as (p & Hp & Hp'), El as (l & Hl & Hl'),
    En as (n & Hn & Hn').
  rewrite Hp, Hl, Hn. cbn [negb andb].
  destruct (vertex_models p l n) as [[|latest older]|] eqn:Hlist;
    [by left| |by left].
  destruct (bucket_and_blob latest) as [[bucket blob_path]|] eqn:Hparse;
    [|by left].
  destruct (gcs_download p bucket blob_path) as [blob|] eqn:Hdown; [|by left].
  unfold load_model. rewrite lookup_insert_eq.
  destruct (pickle_loads blob) as [model|] eqn:Hpickle; [|by left].
  right. exists p, l, n, latest, older, bucket, blob_path, blob, model.
  split_and!; done.
Qed.

(** X19. The model that is uploaded is the model that serves: when the
    registry lists first the artifact URI that the upload script built for
    a bucket and a timestamp, and the bucket holds under the script's blob
    name the pickled estimator, a server started without a model answers
    every accepted batch that is not empty with that estimator's
    prediction on the encoded rows. *)
Theorem uploaded_model_is_served
    (env : gmap string string) (tmp_name : string)
    (files : gmap string (list Byte.byte))
    (project_id location model_name bucket_name timestamp : string)
    (older : list string) (model : LogisticRegression)
    (payload : gmap string pyval) (rows : list FlightRecord) :
  env !! "GCP_PROJECT_ID" = Some project_id → project_id ≠ EmptyString →
  env !! "GCP_LOCATION" = Some location → location ≠ EmptyString →
  env !! "VERTEX_MODEL_NAME" = Some model_name → model_name ≠ EmptyString →
  PyStr.count "/" bucket_name = 0%nat →
  vertex_models project_id location model_name
  = Ok (artifact_uri bucket_name timestamp :: older) →
  gcs_download project_id bucket_name (blob_name timestamp)
  = Ok (pickle_dumps model) →
  pickle_loads (pickle_dumps model) = Ok model →
  _validate payload = Ok rows → rows ≠ [] →
  post_predict (load_model_on_startup env tmp_name files None) payload
  = sk_predict model
      {| index_len := length rows; columns := column_of rows <$> catalog |}.
Proof.
  intros Hp Hp' Hl Hl' Hn Hn' Hbucket Hlist Hdown Hpickle Hrows Hne.
  pose proof (artifact_uri_round_trip _ timestamp Hbucket) as Hparse.
  assert (load_model_on_startup env tmp_name files None = Some model) as ->.
  { run_hook Hp Hl Hn Hlist Hparse Hdown Hpickle. done. }
  unfold post_predict. rewrite Hrows. cbn [mbind result_bind bind].
  by rewrite features_of_rows.
Qed.
End startup_extras.

(** ** The training call of [preprocess] and the training script *)

Section training_extras.
Import DelayModel FeatureEncoderSpec Training.
Context `{Builtins} `{Estimator}.

Lemma training_features (data : TrainingFrame) :
  DelayModel.preprocess (Flights (rows data).*1)
  = Ok {| index_len := length (rows data);
          columns := column_of (rows data).*1 <$> catalog |}.
Proof. by rewrite preprocess_columns, length_fmap. Qed.

Lemma target_of_None (data : TrainingFrame) (c : string) :
  target_of data c = None ↔ c ∉ columns_with_target data.
Proof.
  unfold target_of, columns_with_target. split.
  - repeat case_decide; try done. intros _.
    rewrite !elem_of_app, !elem_of_cons, !elem_of_nil. tauto.
  - intros Hc. repeat case_decide; try done; destruct Hc;
      rewrite !elem_of_app, !elem_of_cons, !elem_of_nil; tauto.
Qed.

Lemma delay_labels_0_1 (data : list (gmap string pyval)) :
  Forall (λ y, y = 0 ∨ y = 1) (_generate_delay_target data).
Proof.
  unfold _generate_delay_target. apply Forall_fmap, Forall_forall.
  intros row _. cbn. unfold delay_of_row. case_decide; auto.
Qed.

(** X20. The training call of [preprocess] fails only for a target
    column that is asked for and is not a column of the frame after the
    labels were added, and then with a [ValueError]; [None] and the empty
    str ask for no target. *)
Theorem training_preprocess_raises_iff
    (data : TrainingFrame) (target_column : option string) (e : exn) :
  Training.preprocess data target_column = Raise e
  ↔ e = ValueError
    ∧ ∃ c, target_column = Some c ∧ c ≠ EmptyString
           ∧ c ∉ columns_with_target data.
Proof.
  unfold Training.preprocess. rewrite training_features.
  cbn [mbind result_bind bind].
  destruct target_column as [[|x c]|]; cbn [truthy mbind option_bind].
  - split; [done|]. intros (_ & c & [= <-] & ? & _). done.
  - destruct (target_of data (String x c)) as [t|] eqn:E.
    + split; [done|]. intros (_ & c' & [= <-] & _ & Hc).
      apply target_of_None in Hc. congruence.
    + apply target_of_None in E. split.
      * intros [= <-]. split; [done|]. by exists (String x c).
      * by intros (-> & _).
  - split; [done|]. intros (_ & c & [=] & _).
Qed.

(** X22. Asked for the target [delay], the training call returns the
    labels of the label generator, also when the frame came with a column
    of that name: one label per row of the features, each 0 or 1. *)
Theorem training_target_is_generated_labels (data : TrainingFrame) :
  ∃ features labels,
    Training.preprocess data (Some "delay")
    = Ok (features, Some (IntColumn labels))
    ∧ labels = _generate_delay_target (rows data).*2
    ∧ length labels = index_len features
    ∧ Forall (λ y, y = 0 ∨ y = 1) labels.
Proof.
  eexists _, _. unfold Training.preprocess. rewrite training_features.
  split_and!; [done | done | |apply delay_labels_0_1].
  unfold _generate_delay_target. cbn [index_len]. by rewrite !length_fmap.
Qed.

(** X23. The training script fits the estimator on the encoded flights
    and the generated labels with the class weights of those labels, and
    writes the pickled estimator to the output path; when fitting raises,
    the script raises the same exception and writes nothing. *)
Theorem train_and_save_pipeline
    (data : TrainingFrame) (output_path : string)
    (files : gmap string (list Byte.byte)) :
  let labels := _generate_delay_target (rows data).*2 in
  train_and_save data output_path files
  = model ← sk_fit (class_weight labels)
             {| index_len := length (rows data);
                columns := column_of (rows data).*1 <$> catalog |}
             labels;
    Ok (<[output_path := pickle_dumps model]> files).
Proof.
  intros labels. unfold train_and_save, Training.preprocess.
  rewrite training_features. cbn [mbind result_bind bind truthy option_bind].
  unfold target_of. rewrite decide_True by done.
  cbn [mbind result_bind bind]. unfold fit. fold labels.
  destruct (sk_fit _ _ _); reflexivity.
Qed.
End training_extras.

(** ** The further properties on sample inputs *)

Section extras_witnesses.
Import DelayModel Api FeatureEncoderSpec Training Startup UploadScript Sample.

Lemma validate_raises_only_witness :
  @_validate Reference.builtins
    (body [flight (VStr "Grupo LATAM") (VStr "I") (VStr "abc")])
  = Raise ValueError
  ∧ (ValueError = bad_request ∨ ValueError = TypeError
     ∨ ∃ flights d mes,
         body [flight (VStr "Grupo LATAM") (VStr "I") (VStr "abc")] !! "flights"
         = Some (VList flights)
         ∧ VDict d ∈ flights ∧ d !! "MES" = Some mes
         ∧ @py_int Reference.builtins mes = Raise ValueError).
Proof.
  split; [reflexivity|].
  apply (@validate_raises_only Reference.builtins
           (body [flight (VStr "Grupo LATAM") (VStr "I") (VStr "abc")])
           ValueError).
  reflexivity.
Defined.

Lemma missing_key_is_bad_request_witness :
  (@validate_loop Reference.builtins
     [flight (VStr "Grupo LATAM") (VStr "I") (VInt 7)] [] = Ok [latam_july]
   ∧ "MES" ∈ ["OPERA"; "TIPOVUELO"; "MES"]
   ∧ ({[ "OPERA" := VList []; "TIPOVUELO" := VStr "I" ]}
        : gmap string pyval) !! "MES" = None)
  ∧ @_validate Reference.builtins
      (body ([flight (VStr "Grupo LATAM") (VStr "I") (VInt 7)]
             ++ VDict {[ "OPERA" := VList []; "TIPOVUELO" := VStr "I" ]}
                :: [VInt 3]))
    = Raise bad_request.
Proof.
  assert ("MES" ∈ ["OPERA"; "TIPOVUELO"; "MES"]) as Hk by compute_done.
  split; [split_and!; [reflexivity | exact Hk | reflexivity]|].
  apply (@missing_key_is_bad_request Reference.builtins
           [flight (VStr "Grupo LATAM") (VStr "I") (VInt 7)] [VInt 3]
           [latam_july] {[ "OPERA" := VList []; "TIPOVUELO" := VStr "I" ]}
           "MES"); [reflexivity | exact Hk | reflexivity].
Defined.

Lemma scalar_element_raises_TypeError_witness :
  @validate_loop Reference.builtins
    [flight (VStr "Grupo LATAM") (VStr "I") (VInt 7)] [] = Ok [latam_july]
  ∧ @_validate Reference.builtins
      (body ([flight (VStr "Grupo LATAM") (VStr "I") (VInt 7)]
             ++ VInt 42 :: [flight (VStr "Avianca") (VStr "I") (VInt 7)]))
    = Raise TypeError
  ∧ TypeError ≠ bad_request.
Proof.
  split; [reflexivity|].
  apply (@scalar_element_raises_TypeError Reference.builtins
           [flight (VStr "Grupo LATAM") (VStr "I") (VInt 7)]
           [flight (VStr "Avianca") (VStr "I") (VInt 7)]
           [latam_july] (VInt 42)); [reflexivity | exact I].
Defined.

Lemma empty_flights_raise_KeyError_witness :
  body [] !! "flights" = Some (VList [])
  ∧ @_validate Reference.builtins (body []) = Ok []
  ∧ @post_predict Reference.builtins Reference.estimator (Some true) (body [])
    = Raise KeyError.
Proof.
  split; [reflexivity|].
  apply (@empty_flights_raise_KeyError Reference.builtins Reference.estimator
           (body []) (Some true)).
  reflexivity.
Defined.

Lemma handler_with_model_witness :
  (@_validate Reference.builtins
     (body [flight (VStr "Grupo LATAM") (VStr "I") (VStr "7")])
   = Ok [latam_july]
   ∧ [latam_july] ≠ [])
  ∧ @post_predict Reference.builtins Reference.estimator (Some true)
      (body [flight (VStr "Grupo LATAM") (VStr "I") (VStr "7")])
    = @sk_predict Reference.estimator true
        {| index_len := length [latam_july];
           columns := column_of [latam_july] <$> catalog |}.
Proof.
  split; [split; [reflexivity | discriminate]|].
  apply (@handler_with_model Reference.builtins Reference.estimator
           (body [flight (VStr "Grupo LATAM") (VStr "I") (VStr "7")])
           [latam_july] true); [reflexivity | discriminate].
Defined.

Lemma encoded_row_is_one_hot_witness :
  [latam_july; sky_december] !! 1%nat = Some sky_december
  ∧ ∃ df law m7 m10 latam m12 tipo_i m4 m11 sky copa,
      DelayModel.preprocess (Flights [latam_july; sky_december]) = Ok df
      ∧ row df 1 = Some [law; m7; m10; latam; m12; tipo_i; m4; m11; sky; copa]
      ∧ Forall (λ x, x = 0 ∨ x = 1)
          [law; m7; m10; latam; m12; tipo_i; m4; m11; sky; copa]
      ∧ law + latam + sky + copa ≤ 1
      ∧ m7 + m10 + m12 + m4 + m11 ≤ 1.
Proof.
  split; [reflexivity|].
  apply (encoded_row_is_one_hot [latam_july; sky_december] 1 sky_december).
  reflexivity.
Defined.

Lemma accepted_record_without_column_witness :
  ([latam_july; sky_december] !! 0%nat = Some latam_july
   ∧ acceptable latam_july)
  ∧ ∃ df law m7 m10 latam m12 tipo_i m4 m11 sky copa,
      DelayModel.preprocess (Flights [latam_july; sky_december]) = Ok df
      ∧ row df 0 = Some [law; m7; m10; latam; m12; tipo_i; m4; m11; sky; copa]
      ∧ (law + latam + sky + copa = 0
         ↔ OPERA latam_july = "Aerolineas Argentinas")
      ∧ (m7 + m10 + m12 + m4 + m11 = 0
         ↔ MES latam_july ∈ [1; 2; 3; 5; 6; 8; 9]).
Proof.
  assert (acceptable latam_july) as Hacc by compute_done.
  split; [split; [reflexivity | exact Hacc]|].
  apply (accepted_record_without_column [latam_july; sky_december] 0
           latam_july); [reflexivity | exact Hacc].
Defined.

Lemma labels_depend_on_timestamps_only_witness :
  Forall2 (λ row row' : gmap string pyval,
             row !! "Fecha-O" = row' !! "Fecha-O"
             ∧ row !! "Fecha-I" = row' !! "Fecha-I")
    [late_row]
    [{[ "Fecha-I" := VStr "2017-01-01 23:50:00";
        "Fecha-O" := VStr "2017-01-02 00:06:00" ]}]
  ∧ @_generate_delay_target Reference.builtins [late_row]
    = @_generate_delay_target Reference.builtins
        [{[ "Fecha-I" := VStr "2017-01-01 23:50:00";
            "Fecha-O" := VStr "2017-01-02 00:06:00" ]}].
Proof.
  assert (Forall2 (λ row row' : gmap string pyval,
                     row !! "Fecha-O" = row' !! "Fecha-O"
                     ∧ row !! "Fecha-I" = row' !! "Fecha-I")
            [late_row]
            [{[ "Fecha-I" := VStr "2017-01-01 23:50:00";
                "Fecha-O" := VStr "2017-01-02 00:06:00" ]}]) as Hsame.
  { repeat constructor. }
  split; [exact Hsame|].
  apply (@labels_depend_on_timestamps_only Reference.builtins _ _ Hsame).
Defined.

Lemma blob_path_appends_to_rest_witness :
  PyStr.count "/" "my-models-bucket" = 0%nat
  ∧ bucket_and_blob ("gs://" +:+ "my-models-bucket" +:+ "/" +:+ "models/v1")
    = Some ("my-models-bucket", "models/v1" +:+ "model.pkl").
Proof.
  split; [reflexivity|].
  apply (blob_path_appends_to_rest "my-models-bucket" "models/v1").
  reflexivity.
Defined.

Lemma upload_and_hook_agree_witness :
  PyStr.count "/" "my-models-bucket" = 0%nat
  ∧ bucket_and_blob (artifact_uri "my-models-bucket" "20240101_120000")
    = Some ("my-models-bucket", blob_name "20240101_120000")
  ∧ gcs_uri "my-models-bucket" (blob_name "20240101_120000")
    = artifact_uri "my-models-bucket" "20240101_120000" +:+ "model.pkl".
Proof.
  split; [reflexivity|].
  apply (upload_and_hook_agree "my-models-bucket" "20240101_120000").
  reflexivity.
Defined.

Lemma hook_loads_first_listed_model_witness :
  @load_model_on_startup Reference.estimator Reference.cloud
    env "/tmp/tmpab12.pkl" ∅ None
  = Some true.
Proof.
  apply (@hook_loads_first_listed_model Reference.estimator Reference.cloud
           env "/tmp/tmpab12.pkl" ∅ None
           "my-project" "us-central1" "flight-delay-model"
           "gs://my-models-bucket/models/flight-delay/v_20240101_120000/"
           "my-models-bucket"
           "models/flight-delay/v_20240101_120000/model.pkl"
           [] [Byte.x01] true);
    (reflexivity || discriminate).
Defined.

Lemma uploaded_model_is_served_witness :
  @post_predict Reference.builtins Reference.estimator
    (@load_model_on_startup Reference.estimator Reference.cloud
       env "/tmp/tmpab12.pkl" ∅ None)
    (body [flight (VStr "Grupo LATAM") (VStr "I") (VInt 7)])
  = @sk_predict Reference.estimator true
      {| index_len := length [latam_july];
         columns := column_of [latam_july] <$> catalog |}.
Proof.
  apply (@uploaded_model_is_served Reference.builtins Reference.estimator
           Reference.cloud env "/tmp/tmpab12.pkl" ∅
           "my-project" "us-central1" "flight-delay-model"
           "my-models-bucket" "20240101_120000" [] true
           (body [flight (VStr "Grupo LATAM") (VStr "I") (VInt 7)])
           [latam_july]);
    (reflexivity || discriminate).
Defined.

(** The sample frame through the training script and back through the
    model store. *)
Example train_sample_frame :
  @Training.preprocess Reference.builtins training_frame (Some "delay")
  = Ok ({| index_len := 2;
           columns := column_of [latam_july; sky_december] <$> catalog |},
        Some (IntColumn [1; 0]))
  ∧ @Training.preprocess Reference.builtins training_frame (Some "label")
    = Raise ValueError
  ∧ (files ← @train_and_save Reference.builtins Reference.estimator
               training_frame "model.pkl" ∅;
     @load_model Reference.estimator "model.pkl" files)
    = Ok (Some false).
Proof. split_and!; reflexivity. Qed.
End extras_witnesses.
